(** * The steady-state heat notebook (newmodel.ipynb)

    The notebook is a straight-line Python script over three libraries:
    underworld (mesh, mesh variables, conditions, systems, integrals),
    glucifer (figures) and numpy (array assignment, [isclose]).  Its cells are
    embedded here as computations in a small state-and-exception monad.  The
    state holds what the script can observe or change: the data arrays of the
    mesh variables (a store indexed by object identity, because the condition,
    the system, the figure and the integral all alias the one temperature
    field), the trace of parameter assignments and library entry points
    entered, and the images displayed.  What the libraries compute (wall
    vertex sets, the solve, the integral, the rendering, the closeness test)
    is not part of the notebook:
    it is taken as an interface, [Libraries], and every statement below is
    proved for an arbitrary implementation of it. *)

From Stdlib Require Import ZArith Floats.
From stdpp Require Import base option list gmap strings.

Open Scope string_scope.
Open Scope list_scope.
Set Warnings "-inexact-float".

(** ** Values *)

(** A numpy array of shape (rows, columns) of float64. *)
Abbreviation ndarray := (list (list float)).

(** An underworld [IndexSet]: a finite set of vertex indices. *)
Abbreviation IndexSet := (gset nat).

(** Identity of a data array in the store. *)
Abbreviation handle := nat.

(** An image shown as the output of a cell. *)
Abbreviation Image := (list (list float)).

(** The handle returned by [uw.mesh.FeMesh_Cartesian]: it keeps the arguments
    it was built from. *)
Record FeMesh : Type := mkFeMesh {
  elementType : string;
  elementRes : Z * Z;
  minCoord : float * float;
  maxCoord : float * float
}.

(** A mesh variable: its mesh, its degrees of freedom per node, and its
    [data] array, a mutable object held by reference. *)
Record MeshVariable : Type := mkMeshVariable {
  mv_mesh : FeMesh;
  nodeDofCount : Z;
  data : handle
}.

Record DirichletCondition : Type := mkDirichletCondition {
  variable : MeshVariable;
  indexSetsPerDof : list IndexSet
}.

Record SteadyStateHeat : Type := mkSteadyStateHeat {
  ssh_temperatureField : MeshVariable;
  fn_diffusivity : float;
  conditions : DirichletCondition
}.

Record Solver : Type := mkSolver { system : SteadyStateHeat }.

Record Integral : Type := mkIntegral {
  integrand : MeshVariable;
  integration_mesh : FeMesh
}.

(** The drawing objects of glucifer and a figure holding them. *)
Inductive Drawing : Type :=
  | objects_Mesh (m : FeMesh)
  | objects_Surface (m : FeMesh) (fn : MeshVariable) (colours : string).

Record Figure : Type := mkFigure {
  figsize : Z * Z;
  drawings : list Drawing
}.

(** ** numpy assignments *)

Module np.

(** [a[:] = v]: every entry becomes [v]. *)
Definition setitem_all (v : float) (a : ndarray) : ndarray :=
  fmap (M := list) (fmap (M := list) (λ _, v)) a.

(** [a[s] = v] for an index set [s]: numpy first checks every index against
    the first axis and raises IndexError if one is out of bounds; otherwise
    each selected row is filled with [v] and no other row is touched. *)
Definition setitem_rows (s : IndexSet) (v : float) (a : ndarray)
  : option ndarray :=
  if decide (set_Forall (λ i, i < length a) s)
  then Some (imap (λ i row,
               if decide (i ∈ s) then fmap (M := list) (λ _, v) row
               else row) a)
  else None.

End np.

(** ** Exceptions, the world, and the monad of cell execution *)

Inductive exn : Type :=
  | RuntimeError (msg : string)
  | IndexError
  | KeyError (key : string).

Inductive outcome (A : Type) : Type :=
  | Returns (a : A)
  | Raises (e : exn).
Arguments Returns {A} a.
Arguments Raises {A} e.

(** What a run does, as seen from outside: the plain assignments of the model
    parameters and the library entry points entered. *)
Inductive Event : Type :=
  | assign_event (name : string)
  | FeMesh_Cartesian_call (m : FeMesh)
  | add_variable_call (m : FeMesh) (dofs : Z)
  | DirichletCondition_call (bc : DirichletCondition)
  | Figure_call (size : Z * Z)
  | objects_Mesh_call
  | objects_Surface_call
  | append_call
  | show_call
  | SteadyStateHeat_call (sys : SteadyStateHeat)
  | Solver_call
  | solve_call
  | Integral_call
  | evaluate_call
  | isclose_call (a b : float).

Record World : Type := mkWorld {
  heap : list ndarray;
  trace : list Event;
  outputs : list Image
}.

Definition fresh_kernel : World :=
  {| heap := []; trace := []; outputs := [] |}.

Definition Py (A : Type) : Type := World → outcome A * World.

Definition ret {A} (a : A) : Py A := λ w, (Returns a, w).

Definition bind {A B} (m : Py A) (k : A → Py B) : Py B :=
  λ w, match m w with
       | (Returns a, w') => k a w'
       | (Raises e, w') => (Raises e, w')
       end.

(** [raise e] stops the run; the world stays as it is at that point. *)
Definition raise {A} (e : exn) : Py A := λ w, (Raises e, w).

Notation "x <- m ;; k" := (bind m (λ x, k))
  (at level 100, m at next level, right associativity).
Notation "m ;;; k" := (bind m (λ _, k))
  (at level 100, right associativity).

Definition enter (c : Event) : Py unit :=
  λ w, (Returns tt,
        {| heap := heap w; trace := trace w ++ [c]; outputs := outputs w |}).

(** [name = literal], for the model parameters; their values are the
    constants [boxHeight], [boxLength], [resx] and [resy] below. *)
Definition assign (name : string) : Py unit := enter (assign_event name).

Definition alloc (a : ndarray) : Py handle :=
  λ w, (Returns (length (heap w)),
        {| heap := heap w ++ [a]; trace := trace w; outputs := outputs w |}).

Definition load (h : handle) : Py ndarray :=
  λ w, (Returns (heap w !!! h), w).

Definition store (h : handle) (a : ndarray) : Py unit :=
  λ w, (Returns tt,
        {| heap := <[h := a]> (heap w); trace := trace w;
           outputs := outputs w |}).

Definition display (img : Image) : Py unit :=
  λ w, (Returns tt,
        {| heap := heap w; trace := trace w; outputs := outputs w ++ [img] |}).

Definition snapshot : Py (list ndarray) := λ w, (Returns (heap w), w).

(** [xs[0]] on a sequence. *)
Definition getitem0 {A} (xs : list A) : Py A :=
  match xs with
  | x :: _ => ret x
  | [] => raise IndexError
  end.

(** ** The libraries, as an interface *)

(** What the notebook asks of underworld, glucifer and numpy.  The types
    record which entry points work in place on the field data (the solve,
    given the array and returning its new content) and which only read
    (the integral, the rendering, the closeness test). *)
Class Libraries : Type := {
  (** [mesh.specialSets], a dictionary from set names to vertex sets *)
  uw_specialSets : FeMesh → gmap string IndexSet;
  (** the content of the data array of a variable just added to a mesh *)
  uw_new_data : FeMesh → Z → ndarray;
  (** the field computed by [Solver.solve] from the system and the current
      content of its temperature field *)
  uw_solve : SteadyStateHeat → ndarray → ndarray;
  (** the vector computed by [Integral.evaluate] *)
  uw_integrate : FeMesh → ndarray → list float;
  (** the picture [Figure.show] produces from the figure and the arrays its
      drawing objects refer to *)
  glucifer_render : Figure → list ndarray → Image;
  (** [numpy.isclose] with its default tolerances *)
  numpy_isclose : float → float → bool
}.

Section Notebook.

Context `{lib : Libraries}.

(** *** Library entry points, as the notebook calls them *)

Definition FeMesh_Cartesian (et : string) (res : Z * Z)
    (lo hi : float * float) : Py FeMesh :=
  let m := mkFeMesh et res lo hi in
  enter (FeMesh_Cartesian_call m) ;;; ret m.

Definition add_variable (m : FeMesh) (dofs : Z) : Py MeshVariable :=
  enter (add_variable_call m dofs) ;;;
  h <- alloc (uw_new_data m dofs) ;;
  ret (mkMeshVariable m dofs h).

(** [mesh.specialSets[key]] *)
Definition specialSets_getitem (m : FeMesh) (key : string) : Py IndexSet :=
  match uw_specialSets m !! key with
  | Some s => ret s
  | None => raise (KeyError key)
  end.

(** [s1 + s2] on index sets: the set holding the members of both. *)
Definition IndexSet_add (s1 s2 : IndexSet) : IndexSet := s1 ∪ s2.

Definition DirichletCondition_new (v : MeshVariable)
    (sets : list IndexSet) : Py DirichletCondition :=
  let bc := mkDirichletCondition v sets in
  enter (DirichletCondition_call bc) ;;; ret bc.

(** [v.data[:] = x] *)
Definition data_setitem_all (v : MeshVariable) (x : float) : Py unit :=
  a <- load (data v) ;;
  store (data v) (np.setitem_all x a).

(** [v.data[s] = x] *)
Definition data_setitem_rows (v : MeshVariable) (s : IndexSet) (x : float)
  : Py unit :=
  a <- load (data v) ;;
  match np.setitem_rows s x a with
  | Some a' => store (data v) a'
  | None => raise IndexError
  end.

Definition Figure_new (size : Z * Z) : Py Figure :=
  enter (Figure_call size) ;;; ret (mkFigure size []).

Definition Mesh_new (m : FeMesh) : Py Drawing :=
  enter objects_Mesh_call ;;; ret (objects_Mesh m).

Definition Surface_new (m : FeMesh) (fn : MeshVariable) (colours : string)
  : Py Drawing :=
  enter objects_Surface_call ;;; ret (objects_Surface m fn colours).

Definition Figure_append (fig : Figure) (d : Drawing) : Py Figure :=
  enter append_call ;;; ret (mkFigure (figsize fig) (drawings fig ++ [d])).

Definition Figure_show (fig : Figure) : Py unit :=
  enter show_call ;;;
  arrays <- snapshot ;;
  display (glucifer_render fig arrays).

Definition SteadyStateHeat_new (T : MeshVariable) (k : float)
    (bc : DirichletCondition) : Py SteadyStateHeat :=
  let sys := mkSteadyStateHeat T k bc in
  enter (SteadyStateHeat_call sys) ;;; ret sys.

Definition Solver_new (sys : SteadyStateHeat) : Py Solver :=
  enter Solver_call ;;; ret (mkSolver sys).

(** [solver.solve()]: the temperature field of the system is overwritten
    with the solution. *)
Definition Solver_solve (s : Solver) : Py unit :=
  enter solve_call ;;;
  let T := ssh_temperatureField (system s) in
  a <- load (data T) ;;
  store (data T) (uw_solve (system s) a).

Definition Integral_new (fn : MeshVariable) (m : FeMesh) : Py Integral :=
  enter Integral_call ;;; ret (mkIntegral fn m).

Definition Integral_evaluate (i : Integral) : Py (list float) :=
  enter evaluate_call ;;;
  a <- load (data (integrand i)) ;;
  ret (uw_integrate (integration_mesh i) a).

Definition isclose (a b : float) : Py bool :=
  enter (isclose_call a b) ;;; ret (numpy_isclose a b).


(** *** Model parameters (cell In[2]) *)

Definition boxHeight : float := 1.0.
Definition boxLength : float := 2.0.
Definition resx : Z := 16.
Definition resy : Z := 8.

(** *** The names bound by the cells, cumulatively *)

Record Globals2 : Type := mkGlobals2 { mesh : FeMesh }.

Record Globals3 : Type := mkGlobals3 {
  g2 :> Globals2;
  temperatureField : MeshVariable
}.

Record Globals4 : Type := mkGlobals4 {
  g3 :> Globals3;
  botWalls : IndexSet;
  topWalls : IndexSet;
  bcWalls : IndexSet;
  tempBC : DirichletCondition
}.

Record Globals6 : Type := mkGlobals6 { g4 :> Globals4; fig : Figure }.

Record Globals7 : Type := mkGlobals7 {
  g6 :> Globals6;
  heatequation : SteadyStateHeat;
  heatsolver : Solver
}.

Record Globals9 : Type := mkGlobals9 {
  g7 :> Globals7;
  tottemp : Integral;
  avtemp : float
}.

(** *** The cells, in the order of the notebook *)

(** In[1]: the two imports. *)
Definition cell1 : Py unit := ret tt.

(** In[2]: parameters and mesh. *)
Definition cell2 : Py Globals2 :=
  assign "boxHeight" ;;;
  assign "boxLength" ;;;
  assign "resx" ;;;
  assign "resy" ;;;
  mesh <- FeMesh_Cartesian "Q1/dQ0" (resx, resy) (0.0, 0.0)%float
            (boxLength, boxHeight) ;;
  ret (mkGlobals2 mesh).

(** In[3]: the temperature field, initialised. *)
Definition cell3 (g : Globals2) : Py Globals3 :=
  temperatureField <- add_variable (mesh g) 1 ;;
  data_setitem_all temperatureField 0.0 ;;;
  ret (mkGlobals3 g temperatureField).

(** In[4]: wall vertex sets and the Dirichlet condition. *)
Definition cell4 (g : Globals3) : Py Globals4 :=
  botWalls <- specialSets_getitem (mesh g) "Bottom_VertexSet" ;;
  topWalls <- specialSets_getitem (mesh g) "Top_VertexSet" ;;
  let bcWalls := IndexSet_add botWalls topWalls in
  tempBC <- DirichletCondition_new (temperatureField g) [bcWalls] ;;
  ret (mkGlobals4 g botWalls topWalls bcWalls tempBC).

(** In[5]: wall temperatures, bottom first, then top. *)
Definition cell5 (g : Globals4) : Py Globals4 :=
  data_setitem_rows (temperatureField g) (botWalls g) 1.0 ;;;
  data_setitem_rows (temperatureField g) (topWalls g) 0.0 ;;;
  ret g.

(** In[6]: the figure is built and shown. *)
Definition cell6 (g : Globals4) : Py Globals6 :=
  fig <- Figure_new (800, 400)%Z ;;
  d <- Mesh_new (mesh g) ;;
  fig <- Figure_append fig d ;;
  d <- Surface_new (mesh g) (temperatureField g) "blue white red" ;;
  fig <- Figure_append fig d ;;
  Figure_show fig ;;;
  ret (mkGlobals6 g fig).

(** In[7]: system, solver, solve. *)
Definition cell7 (g : Globals6) : Py Globals7 :=
  heatequation <- SteadyStateHeat_new (temperatureField g) 1.0 (tempBC g) ;;
  heatsolver <- Solver_new heatequation ;;
  Solver_solve heatsolver ;;;
  ret (mkGlobals7 g heatequation heatsolver).

(** In[8]: the same figure is shown again. *)
Definition cell8 (g : Globals7) : Py Globals7 :=
  Figure_show (fig g) ;;;
  ret g.

(** In[9], first half: the average temperature. *)
Definition cell9_average (g : Globals7) : Py Globals9 :=
  tottemp <- Integral_new (temperatureField g) (mesh g) ;;
  v <- Integral_evaluate tottemp ;;
  x <- getitem0 v ;;
  let avtemp := (x / (boxHeight * boxLength))%float in
  ret (mkGlobals9 g tottemp avtemp).

Definition message : string :=
  "Incorrect average temperature produced by model. ".

(** In[9], second half: the test on it. *)
Definition cell9_check (g : Globals9) : Py Globals9 :=
  close <- isclose (avtemp g) 0.5 ;;
  if negb close then raise (RuntimeError message) else ret g.

Definition cell9 (g : Globals7) : Py Globals9 :=
  g <- cell9_average g ;; cell9_check g.

(** *** Runs of the first cells, and of the whole notebook *)

Definition through_cell2 : Py Globals2 := cell1 ;;; cell2.
Definition through_cell3 : Py Globals3 := g <- through_cell2 ;; cell3 g.
Definition through_cell4 : Py Globals4 := g <- through_cell3 ;; cell4 g.
Definition through_cell5 : Py Globals4 := g <- through_cell4 ;; cell5 g.
Definition through_cell6 : Py Globals6 := g <- through_cell5 ;; cell6 g.
Definition through_cell7 : Py Globals7 := g <- through_cell6 ;; cell7 g.
Definition through_cell8 : Py Globals7 := g <- through_cell7 ;; cell8 g.
Definition notebook : Py Globals9 := g <- through_cell8 ;; cell9 g.

(** The content of the temperature field in a world. *)
Definition field_data (g : Globals3) (w : World) : ndarray :=
  heap w !!! data (temperatureField g).

End Notebook.

(** ** The steps of the script *)

(** The kinds of step an event belongs to. *)
Inductive Phase : Type :=
  | ParameterDeclaration
  | MeshAndVariables
  | BoundaryConditions
  | SolverInvocation
  | Visualization
  | PostCheck.

#[global] Instance Phase_eq_dec : EqDecision Phase.
Proof. solve_decision. Defined.

Definition phase_of (c : Event) : Phase :=
  match c with
  | assign_event _ => ParameterDeclaration
  | FeMesh_Cartesian_call _ | add_variable_call _ _ => MeshAndVariables
  | DirichletCondition_call _ => BoundaryConditions
  | Figure_call _ | objects_Mesh_call | objects_Surface_call
  | append_call | show_call => Visualization
  | SteadyStateHeat_call _ | Solver_call | solve_call => SolverInvocation
  | Integral_call | evaluate_call | isclose_call _ _ => PostCheck
  end.

(** Consecutive events of one phase form one step. *)
Fixpoint steps (ps : list Phase) : list Phase :=
  match ps with
  | [] => []
  | p :: rest =>
      match rest with
      | q :: _ => if decide (p = q) then steps rest else p :: steps rest
      | [] => [p]
      end
  end.

Definition phases (w : World) : list Phase := steps (phase_of <$> trace w).

Definition is_show (c : Event) : bool :=
  match c with show_call => true | _ => false end.

(** ** An executable implementation of the interface

    A stand-in for the libraries, small enough to run the notebook inside
    Rocq: vertices numbered row by row from the bottom left, a solve that
    interpolates linearly between the wall values of each column, an integral
    that sums the cell averages, and the closeness formula of numpy.  It is
    used only to run the statements below on concrete data. *)

Module toy.

Open Scope float_scope.

Definition columns (m : FeMesh) : nat := S (Z.to_nat (fst (elementRes m))).
Definition rows (m : FeMesh) : nat := S (Z.to_nat (snd (elementRes m))).

Definition bottom (m : FeMesh) : IndexSet :=
  list_to_set (seq 0 (columns m)).
Definition top (m : FeMesh) : IndexSet :=
  list_to_set (seq (Nat.mul (Nat.pred (rows m)) (columns m)) (columns m)).

Definition specialSets (m : FeMesh) : gmap string IndexSet :=
  <["Bottom_VertexSet" := bottom m]>
    (<["Top_VertexSet" := top m]> ∅).

Definition new_data (m : FeMesh) (dofs : Z) : ndarray :=
  replicate (Nat.mul (rows m) (columns m)) (replicate (Z.to_nat dofs) 7.0).

Fixpoint float_of_nat (n : nat) : float :=
  match n with
  | O => 0.0
  | S k => float_of_nat k + 1.0
  end.

Definition solve (sys : SteadyStateHeat) (a : ndarray) : ndarray :=
  let m := mv_mesh (ssh_temperatureField sys) in
  let nc := columns m in
  let last := Nat.pred (rows m) in
  imap (λ n _,
    let lo : list float := a !!! (Nat.modulo n nc) in
    let hi : list float := a !!! (Nat.add (Nat.mul last nc) (Nat.modulo n nc)) in
    zip_with (λ b t,
      b + (t - b) * (float_of_nat (Nat.div n nc) / float_of_nat last))
      lo hi) a.

Definition value (a : ndarray) (n : nat) : float :=
  match a !!! n with
  | x :: _ => x
  | [] => 0.0
  end.

Definition integrate (m : FeMesh) (a : ndarray) : list float :=
  let nc := columns m in
  let dx := (fst (maxCoord m) - fst (minCoord m))
            / float_of_nat (Nat.pred nc) in
  let dy := (snd (maxCoord m) - snd (minCoord m))
            / float_of_nat (Nat.pred (rows m)) in
  [ foldr (λ j acc,
      foldr (λ i acc,
        let n := Nat.add (Nat.mul j nc) i in
        acc + dx * dy *
          ((value a n + value a (S n)
            + value a (Nat.add n nc) + value a (S (Nat.add n nc))) / 4.0))
        acc (seq 0 (Nat.pred nc)))
      0.0 (seq 0 (Nat.pred (rows m))) ].

Definition render (fig : Figure) (arrays : list ndarray) : Image :=
  flat_map (λ d,
    match d with
    | objects_Mesh _ => []
    | objects_Surface _ fn _ => arrays !!! data fn
    end) (drawings fig).

Definition isfinite (x : float) : bool :=
  negb (is_nan x || is_infinity x).

Definition isclose (a b : float) : bool :=
  if isfinite a && isfinite b
  then abs (a - b) <=? 1e-8 + 1e-5 * abs b
  else a =? b.

Definition libraries : Libraries :=
  {| uw_specialSets := specialSets;
     uw_new_data := new_data;
     uw_solve := solve;
     uw_integrate := integrate;
     glucifer_render := render;
     numpy_isclose := isclose |}.

(** The same, with a solve that leaves the field as it finds it. *)
Definition idle : Libraries :=
  {| uw_specialSets := specialSets;
     uw_new_data := new_data;
     uw_solve := λ _ a, a;
     uw_integrate := integrate;
     glucifer_render := render;
     numpy_isclose := isclose |}.

End toy.

(** The order of steps as the specification lists it. *)
Definition listed_order : list Phase :=
  [ParameterDeclaration; MeshAndVariables; BoundaryConditions;
   SolverInvocation; Visualization; PostCheck].

(** How many times a figure has been shown. *)
Definition shows (w : World) : nat :=
  length (filter (λ c, is_show c = true) (trace w)).

Definition is_Figure_call (c : Event) : bool :=
  match c with Figure_call _ => true | _ => false end.

(** How many figures have been built. *)
Definition figures_built (w : World) : nat :=
  length (filter (λ c, is_Figure_call c = true) (trace w)).

Definition is_solve (c : Event) : bool :=
  match c with solve_call => true | _ => false end.

(** How many times a solve has been entered. *)
Definition solves (w : World) : nat :=
  length (filter (λ c, is_solve c = true) (trace w)).

(** The run up to the test of cell In[9]. *)
Definition before_check `{lib : Libraries} : Py Globals9 :=
  g <- through_cell8 ;; cell9_average g.

(** The notebook run on [toy.libraries] from a fresh kernel: the names it
    binds and the worlds it goes through. *)

Module on_toy.

#[local] Existing Instance toy.libraries.

Definition m : FeMesh :=
  mkFeMesh "Q1/dQ0" (16, 8)%Z (0.0, 0.0)%float (2.0, 1.0)%float.
Definition T : MeshVariable := mkMeshVariable m 1 0.
Definition g3 : Globals3 := mkGlobals3 (mkGlobals2 m) T.
Definition g4 : Globals4 :=
  mkGlobals4 g3 (toy.bottom m) (toy.top m)
    (IndexSet_add (toy.bottom m) (toy.top m))
    (mkDirichletCondition T [IndexSet_add (toy.bottom m) (toy.top m)]).
Definition g6 : Globals6 :=
  mkGlobals6 g4
    (mkFigure (800, 400)%Z
       [objects_Mesh m; objects_Surface m T "blue white red"]).
Definition g7 : Globals7 :=
  let sys := mkSteadyStateHeat T 1 (tempBC g4) in
  mkGlobals7 g6 sys (mkSolver sys).
Definition g9 : Globals9 := mkGlobals9 g7 (mkIntegral T m) 0.5.

Definition w3 : World := snd (through_cell3 fresh_kernel).
Definition w4 : World := snd (through_cell4 fresh_kernel).
Definition w5 : World := snd (through_cell5 fresh_kernel).
Definition w8 : World := snd (through_cell8 fresh_kernel).
Definition w9 : World := snd (before_check fresh_kernel).

End on_toy.

(** ** What the runs are made of *)

(** The value cell In[2] binds to [mesh]. *)
Definition the_mesh : FeMesh :=
  mkFeMesh "Q1/dQ0" (resx, resy) (0.0, 0.0)%float (boxLength, boxHeight).

(** The figure cell In[6] builds for a mesh and a field. *)
Definition the_figure (m : FeMesh) (T : MeshVariable) : Figure :=
  mkFigure (800, 400)%Z [objects_Mesh m; objects_Surface m T "blue white red"].

(** The system cell In[7] builds for a field and a condition. *)
Definition the_system (T : MeshVariable) (bc : DirichletCondition)
  : SteadyStateHeat :=
  mkSteadyStateHeat T 1.0 bc.

(** A row of an array with every entry replaced by [v]. *)
Definition filled (v : float) (row : list float) : list float :=
  fmap (M := list) (λ _, v) row.

(** ** Implementations of the interface that make a cell fail

    Variants of [toy.libraries] for running the error paths: a mesh without
    a top wall set, a variable whose data array is too short for the top wall,
    a variable whose data array is too short even for the bottom wall (ten
    rows for seventeen vertices), and an integral that evaluates to the
    empty vector. *)

Module faulty.

Definition no_top : Libraries :=
  {| uw_specialSets := λ m, <["Bottom_VertexSet" := toy.bottom m]> ∅;
     uw_new_data := toy.new_data;
     uw_solve := toy.solve;
     uw_integrate := toy.integrate;
     glucifer_render := toy.render;
     numpy_isclose := toy.isclose |}.

Definition short_field : Libraries :=
  {| uw_specialSets := toy.specialSets;
     uw_new_data := λ m dofs,
       replicate (toy.columns m) (replicate (Z.to_nat dofs) 7.0%float);
     uw_solve := toy.solve;
     uw_integrate := toy.integrate;
     glucifer_render := toy.render;
     numpy_isclose := toy.isclose |}.

Definition narrow_field : Libraries :=
  {| uw_specialSets := toy.specialSets;
     uw_new_data := λ _ dofs,
       replicate 10 (replicate (Z.to_nat dofs) 7.0%float);
     uw_solve := toy.solve;
     uw_integrate := toy.integrate;
     glucifer_render := toy.render;
     numpy_isclose := toy.isclose |}.

Definition no_integral : Libraries :=
  {| uw_specialSets := toy.specialSets;
     uw_new_data := toy.new_data;
     uw_solve := toy.solve;
     uw_integrate := λ _ _, [];
     glucifer_render := toy.render;
     numpy_isclose := toy.isclose |}.

(** The worlds the failing runs reach before cell In[5]. *)
Definition short_w4 : World :=
  snd (through_cell4 (lib := short_field) fresh_kernel).
Definition narrow_w4 : World :=
  snd (through_cell4 (lib := narrow_field) fresh_kernel).

End faulty.

(** * Properties *)

(** ** Arrays *)

Section Arrays.

Implicit Types (a : ndarray) (s : IndexSet) (v : float).

Lemma setitem_all_shape v a : length <$> np.setitem_all v a = length <$> a.
Proof.
  unfold np.setitem_all. rewrite <- list_fmap_compose.
  apply list_fmap_ext. intros _ row _. simpl. apply length_fmap.
Qed.

Lemma setitem_all_entries v a : Forall (Forall (eq v)) (np.setitem_all v a).
Proof.
  unfold np.setitem_all. apply Forall_fmap, Forall_true. intros row. simpl.
  apply Forall_fmap, Forall_true. intros x. reflexivity.
Qed.

Lemma setitem_rows_in_range s v a :
  set_Forall (λ i, i < length a) s → is_Some (np.setitem_rows s v a).
Proof. intros H. unfold np.setitem_rows. rewrite decide_True by done. eauto. Qed.

Lemma setitem_rows_length s v a a' :
  np.setitem_rows s v a = Some a' → length a' = length a.
Proof.
  unfold np.setitem_rows. case_decide; [|done].
  intros [= <-]. apply length_imap.
Qed.

Lemma setitem_rows_inside s v a a' i :
  np.setitem_rows s v a = Some a' → i ∈ s →
  ∃ row, a !! i = Some row ∧ a' !! i = Some (fmap (M := list) (λ _, v) row).
Proof.
  unfold np.setitem_rows. case_decide as Hr; [|done].
  intros [= <-] Hi. destruct (lookup_lt_is_Some_2 a i (Hr i Hi)) as [row Hrow].
  exists row. split; [done|].
  rewrite list_lookup_imap, Hrow. simpl. by rewrite decide_True.
Qed.

Lemma setitem_rows_outside s v a a' i :
  np.setitem_rows s v a = Some a' → i ∉ s → a' !! i = a !! i.
Proof.
  unfold np.setitem_rows. case_decide; [|done].
  intros [= <-] Hi. rewrite list_lookup_imap.
  destruct (a !! i); simpl; [|done]. by rewrite decide_False.
Qed.

Lemma filled_row v (row : list float) :
  Forall (eq v) (fmap (M := list) (λ _, v) row).
Proof. apply Forall_fmap, Forall_true. intros x. reflexivity. Qed.

(** Reading back an array just stored, when the stored array has the length
    of the one it replaces (which is empty when the handle is dangling). *)
Lemma load_after_store (h : handle) (hp : list ndarray) a :
  length a = length (hp !!! h) → <[h := a]> hp !!! h = a.
Proof.
  intros Hlen. destruct (decide (h < length hp)) as [Hlt|Hge].
  - by apply list_lookup_total_insert_eq.
  - rewrite list_insert_ge by lia.
    rewrite list_lookup_total_alt in Hlen |- *.
    rewrite lookup_ge_None_2 in Hlen |- * by lia. simpl in *.
    symmetry. by apply nil_length_inv.
Qed.

End Arrays.

(** ** The cells *)

Section Cells.

Context `{lib : Libraries}.

Ltac run := unfold bind, ret, raise, enter, alloc, load, store, display,
  snapshot; simpl.

(** C8.  Cell In[2] builds the mesh by one call of [FeMesh_Cartesian] with
    element type "Q1/dQ0", element resolution (16, 8), lower corner (0, 0) and
    upper corner (boxLength, boxHeight), which is (2.0, 1.0); that call is the
    first thing the notebook asks of a library, and nothing else changes. *)
Theorem mesh_built_from_parameters (w : World) :
  ∃ g w',
    through_cell2 w = (Returns g, w')
    ∧ mesh g = mkFeMesh "Q1/dQ0" (resx, resy) (0, 0)%float
                 (boxLength, boxHeight)
    ∧ mesh g = mkFeMesh "Q1/dQ0" (16, 8)%Z (0.0, 0.0)%float (2.0, 1.0)%float
    ∧ trace w' = trace w ++ [assign_event "boxHeight";
                              assign_event "boxLength"; assign_event "resx";
                              assign_event "resy";
                              FeMesh_Cartesian_call (mesh g)]
    ∧ heap w' = heap w.
Proof.
  eexists _, _. split; [reflexivity|]. simpl.
  do 2 (split; [reflexivity|]). split; [|reflexivity].
  by rewrite <- !app_assoc.
Qed.

Lemma through_cell3_runs (w : World) :
  let m := mkFeMesh "Q1/dQ0" (resx, resy) (0, 0)%float
             (boxLength, boxHeight) in
  let T := mkMeshVariable m 1 (length (heap w)) in
  through_cell3 w =
    (Returns (mkGlobals3 (mkGlobals2 m) T),
     {| heap := <[length (heap w) := np.setitem_all 0 (uw_new_data m 1)]>
                  (heap w ++ [uw_new_data m 1]);
        trace := trace w ++ [assign_event "boxHeight";
                             assign_event "boxLength"; assign_event "resx";
                             assign_event "resy"; FeMesh_Cartesian_call m;
                             add_variable_call m 1];
        outputs := outputs w |}).
Proof.
  simpl. unfold through_cell3, through_cell2, cell1, cell2, cell3,
    FeMesh_Cartesian, add_variable, data_setitem_all, assign. run.
  rewrite list_lookup_total_middle by done. by rewrite <- !app_assoc.
Qed.

Lemma field_data_after_cell3 (w : World) (g : Globals3) (w' : World) :
  through_cell3 w = (Returns g, w') →
  field_data g w' = np.setitem_all 0 (uw_new_data (mesh g) 1).
Proof.
  rewrite through_cell3_runs. intros [= <- <-]. unfold field_data. simpl.
  rewrite list_lookup_total_insert_eq; [done|].
  rewrite length_app. simpl. lia.
Qed.

(** C4.  Once cell In[3] has run, the temperature field is a variable of the
    mesh with one degree of freedom per node, its data array has the shape the
    library gave it, and every entry of it is 0.0. *)
Theorem temperature_field_starts_at_zero (w : World) :
  ∃ g w',
    through_cell3 w = (Returns g, w')
    ∧ mv_mesh (temperatureField g) = mesh g
    ∧ nodeDofCount (temperatureField g) = 1%Z
    ∧ length <$> field_data g w' = length <$> uw_new_data (mesh g) 1
    ∧ Forall (Forall (eq 0.0%float)) (field_data g w').
Proof.
  destruct (through_cell3 w) as [o w'] eqn:E.
  pose proof E as E'. rewrite through_cell3_runs in E'.
  injection E' as <- Hw.
  eexists _, w'. split; [reflexivity|].
  rewrite (field_data_after_cell3 _ _ _ E). simpl. repeat split.
  - apply setitem_all_shape.
  - apply setitem_all_entries.
Qed.

(** C5.  When the mesh has a bottom and a top wall vertex set, cell In[4]
    builds the Dirichlet condition on the temperature field with a single
    index set, [bcWalls = botWalls + topWalls], whose members are exactly the
    vertices of the bottom wall and those of the top wall. *)
Theorem dirichlet_condition_on_both_walls (g : Globals3) (w : World)
    (bot top : IndexSet) :
  uw_specialSets (mesh g) !! "Bottom_VertexSet" = Some bot →
  uw_specialSets (mesh g) !! "Top_VertexSet" = Some top →
  ∃ g' w',
    cell4 g w = (Returns g', w')
    ∧ g3 g' = g
    ∧ botWalls g' = bot ∧ topWalls g' = top
    ∧ bcWalls g' = IndexSet_add (botWalls g') (topWalls g')
    ∧ variable (tempBC g') = temperatureField g
    ∧ indexSetsPerDof (tempBC g') = [bcWalls g']
    ∧ (∀ i, i ∈ bcWalls g' ↔ i ∈ bot ∨ i ∈ top)
    ∧ trace w' = trace w ++ [DirichletCondition_call (tempBC g')]
    ∧ heap w' = heap w.
Proof.
  intros Hb Ht. unfold cell4, specialSets_getitem. rewrite Hb, Ht.
  eexists _, _. split; [reflexivity|]. simpl.
  repeat split; try apply elem_of_union.
Qed.

Lemma data_setitem_rows_runs (T : MeshVariable) (s : IndexSet) (x : float)
    (w : World) :
  data_setitem_rows T s x w =
    match np.setitem_rows s x (heap w !!! data T) with
    | Some a' => (Returns tt,
                  {| heap := <[data T := a']> (heap w); trace := trace w;
                     outputs := outputs w |})
    | None => (Raises IndexError, w)
    end.
Proof.
  unfold data_setitem_rows. run. by destruct (np.setitem_rows _ _ _).
Qed.

(** What cell In[5] does to the world, when it returns. *)
Lemma cell5_returns (g g' : Globals4) (w w' : World) :
  cell5 g w = (Returns g', w') →
  g' = g ∧ trace w' = trace w ∧ outputs w' = outputs w
  ∧ ∃ a1 a2,
      np.setitem_rows (botWalls g) 1 (field_data g w) = Some a1
      ∧ np.setitem_rows (topWalls g) 0 a1 = Some a2
      ∧ heap w' = <[data (temperatureField g) := a2]> (heap w)
      ∧ field_data g w' = a2.
Proof.
  unfold cell5, field_data.
  unfold bind at 1. rewrite data_setitem_rows_runs.
  destruct (np.setitem_rows (botWalls g) _ _) as [a1|] eqn:E1; [|done].
  unfold bind at 1. rewrite data_setitem_rows_runs. simpl.
  rewrite load_after_store by (by apply setitem_rows_length in E1).
  destruct (np.setitem_rows (topWalls g) _ _) as [a2|] eqn:E2; [|done].
  simpl. intros [= <- <-]. simpl. do 3 (split; [done|]).
  exists a1, a2. do 2 (split; [done|]). split.
  - by rewrite list_insert_insert_eq.
  - rewrite list_insert_insert_eq. apply load_after_store.
    apply setitem_rows_length in E1, E2. congruence.
Qed.

(** C6.  When the wall vertex sets index into the field data and have no
    vertex in common, cell In[5] returns, and afterwards every row of the
    field data indexed by the bottom wall holds 1.0 and every row indexed by
    the top wall holds 0.0 (each row keeping its length). *)
Theorem wall_values_assigned (g : Globals4) (w : World) :
  set_Forall (λ i, i < length (field_data g w)) (botWalls g ∪ topWalls g) →
  botWalls g ## topWalls g →
  ∃ w',
    cell5 g w = (Returns g, w')
    ∧ (∀ i, i ∈ botWalls g →
         ∃ old row, field_data g w !! i = Some old
           ∧ field_data g w' !! i = Some row
           ∧ length row = length old ∧ Forall (eq 1.0%float) row)
    ∧ (∀ i, i ∈ topWalls g →
         ∃ old row, field_data g w !! i = Some old
           ∧ field_data g w' !! i = Some row
           ∧ length row = length old ∧ Forall (eq 0.0%float) row).
Proof.
  intros Hrange Hdisj.
  destruct (setitem_rows_in_range (botWalls g) 1 (field_data g w))
    as [a1 E1].
  { intros i Hi. apply Hrange. set_solver. }
  destruct (setitem_rows_in_range (topWalls g) 0 a1) as [a2 E2].
  { intros i Hi. rewrite (setitem_rows_length _ _ _ _ E1).
    apply Hrange. set_solver. }
  destruct (cell5 g w) as [o w'] eqn:E.
  assert (∃ g', o = Returns g') as [g' ->].
  { revert E. unfold cell5, field_data in *.
    unfold bind at 1. rewrite data_setitem_rows_runs, E1.
    unfold bind at 1. rewrite data_setitem_rows_runs. simpl.
    rewrite load_after_store by (by apply setitem_rows_length in E1).
    rewrite E2. simpl. intros [= <- _]. eauto. }
  destruct (cell5_returns _ _ _ _ E) as (-> & _ & _ & b1 & b2 & F1 & F2 & _ & Hd).
  assert (b1 = a1) as -> by congruence.
  assert (b2 = a2) as -> by congruence.
  exists w'. split; [done|]. rewrite Hd. split; intros i Hi.
  - destruct (setitem_rows_inside _ _ _ _ i E1 Hi) as (old & Hold & Hnew).
    exists old, (fmap (M := list) (λ _, 1%float) old). repeat split.
    + done.
    + rewrite (setitem_rows_outside _ _ _ _ i E2) by set_solver. done.
    + apply length_fmap.
    + apply filled_row.
  - destruct (setitem_rows_inside _ _ _ _ i E2 Hi) as (mid & Hmid & Hnew).
    assert (∃ old, field_data g w !! i = Some old ∧ length mid = length old)
      as (old & Hold & Hlen).
    { destruct (decide (i ∈ botWalls g)) as [Hb|Hb].
      - destruct (setitem_rows_inside _ _ _ _ i E1 Hb) as (old & Hold & Hm).
        exists old. split; [done|].
        rewrite Hm in Hmid. injection Hmid as <-. apply length_fmap.
      - rewrite (setitem_rows_outside _ _ _ _ i E1 Hb) in Hmid. eauto. }
    exists old, (fmap (M := list) (λ _, 0%float) mid). repeat split.
    + done.
    + done.
    + rewrite length_fmap. done.
    + apply filled_row.
Qed.

Lemma cell4_returns (g : Globals3) (g' : Globals4) (w w' : World) :
  cell4 g w = (Returns g', w') →
  g3 g' = g ∧ heap w' = heap w ∧ outputs w' = outputs w
  ∧ trace w' = trace w ++ [DirichletCondition_call (tempBC g')].
Proof.
  unfold cell4, specialSets_getitem.
  destruct (uw_specialSets _ !! "Bottom_VertexSet"); [|done].
  destruct (uw_specialSets _ !! "Top_VertexSet"); [|done].
  intros [= <- <-]. done.
Qed.

Lemma through_cell4_returns (w : World) (g : Globals4) (w' : World) :
  through_cell4 w = (Returns g, w') →
  field_data g w' = np.setitem_all 0 (uw_new_data (mesh g) 1)
  ∧ outputs w' = outputs w
  ∧ trace w' = trace w ++ [assign_event "boxHeight";
                            assign_event "boxLength"; assign_event "resx";
                            assign_event "resy";
                            FeMesh_Cartesian_call (mesh g);
                            add_variable_call (mesh g) 1;
                            DirichletCondition_call (tempBC g)].
Proof.
  unfold through_cell4, bind.
  destruct (through_cell3 w) as [[g3|e] w3] eqn:E3; [|done].
  intros E4. destruct (cell4_returns _ _ _ _ E4) as (<- & Hh & Ho & Hc).
  split; [|split].
  - unfold field_data. rewrite Hh. apply (field_data_after_cell3 _ _ _ E3).
  - rewrite Ho. rewrite through_cell3_runs in E3. by injection E3 as _ <-.
  - rewrite Hc. rewrite through_cell3_runs in E3. injection E3 as <- <-.
    simpl. by rewrite <- !app_assoc.
Qed.

Lemma cell6_runs (g : Globals4) (w : World) :
  let fig := mkFigure (800, 400)%Z
               [objects_Mesh (mesh g);
                objects_Surface (mesh g) (temperatureField g)
                  "blue white red"] in
  cell6 g w =
    (Returns (mkGlobals6 g fig),
     {| heap := heap w;
        trace := trace w ++ [Figure_call (800, 400)%Z; objects_Mesh_call;
                             append_call; objects_Surface_call; append_call;
                             show_call];
        outputs := outputs w ++ [glucifer_render fig (heap w)] |}).
Proof.
  simpl. unfold cell6, Figure_new, Mesh_new, Surface_new, Figure_append,
    Figure_show. run. by rewrite <- !app_assoc.
Qed.

Lemma cell7_runs (g : Globals6) (w : World) :
  let sys := mkSteadyStateHeat (temperatureField g) 1 (tempBC g) in
  cell7 g w =
    (Returns (mkGlobals7 g sys (mkSolver sys)),
     {| heap := <[data (temperatureField g) :=
                    uw_solve sys (field_data g w)]> (heap w);
        trace := trace w ++ [SteadyStateHeat_call sys; Solver_call;
                             solve_call];
        outputs := outputs w |}).
Proof.
  simpl. unfold cell7, SteadyStateHeat_new, Solver_new, Solver_solve. run.
  by rewrite <- !app_assoc.
Qed.

Lemma cell8_runs (g : Globals7) (w : World) :
  cell8 g w =
    (Returns g,
     {| heap := heap w; trace := trace w ++ [show_call];
        outputs := outputs w ++ [glucifer_render (fig g) (heap w)] |}).
Proof. reflexivity. Qed.

Lemma cell9_average_runs (g : Globals7) (w : World) :
  let w' := {| heap := heap w;
               trace := trace w ++ [Integral_call; evaluate_call];
               outputs := outputs w |} in
  cell9_average g w =
    match uw_integrate (mesh g) (field_data g w) with
    | x :: _ =>
        (Returns (mkGlobals9 g (mkIntegral (temperatureField g) (mesh g))
                    (x / (boxHeight * boxLength))%float), w')
    | [] => (Raises IndexError, w')
    end.
Proof.
  simpl. unfold cell9_average, Integral_new, Integral_evaluate, field_data.
  run. rewrite <- !app_assoc. simpl. by destruct (uw_integrate _ _).
Qed.

Lemma cell9_check_runs (g : Globals9) (w : World) :
  let w' := {| heap := heap w;
               trace := trace w ++ [isclose_call (avtemp g) 0.5];
               outputs := outputs w |} in
  cell9_check g w =
    if numpy_isclose (avtemp g) 0.5 then (Returns g, w')
    else (Raises (RuntimeError message), w').
Proof.
  simpl. unfold cell9_check, isclose. run.
  by destruct (numpy_isclose _ _).
Qed.

Lemma bind_assoc {A B C} (m : Py A) (f : A → Py B) (k : B → Py C) w :
  bind (bind m f) k w = bind m (λ a, bind (f a) k) w.
Proof. unfold bind. by destruct (m w) as [[a|e] w']. Qed.

Lemma notebook_is_check_after_average (w : World) :
  notebook w = bind before_check cell9_check w.
Proof.
  unfold notebook, before_check, cell9. by rewrite bind_assoc.
Qed.

(** C9.  In a run that has got through cell In[5], the two assignments of
    that cell have changed no row of the field data outside the two wall
    vertex sets and no other array; so every row outside the walls still holds
    0.0, and it does so until the solver runs, because cell In[6], which only
    shows the figure, returns and leaves the arrays as they are. *)
Theorem interior_untouched_before_solve (w : World) (g : Globals4)
    (w5 : World) :
  through_cell5 w = (Returns g, w5) →
  ∃ w4,
    through_cell4 w = (Returns g, w4)
    ∧ length (field_data g w5) = length (uw_new_data (mesh g) 1)
    ∧ (∀ i, i ∉ botWalls g → i ∉ topWalls g →
         field_data g w5 !! i = field_data g w4 !! i)
    ∧ (∀ h, h ≠ data (temperatureField g) → heap w5 !! h = heap w4 !! h)
    ∧ (∀ i row, field_data g w5 !! i = Some row →
         i ∉ botWalls g → i ∉ topWalls g → Forall (eq 0.0%float) row)
    ∧ ∃ g6 w6,
        through_cell6 w = (Returns g6, w6)
        ∧ g4 g6 = g ∧ heap w6 = heap w5.
Proof.
  intros E5. pose proof E5 as E. unfold through_cell5, bind in E.
  destruct (through_cell4 w) as [[g' |e] w4] eqn:E4; [|done].
  destruct (cell5_returns _ _ _ _ E) as (-> & _ & _ & a1 & a2 & F1 & F2 & Hh & Hd).
  destruct (through_cell4_returns _ _ _ E4) as (Hz & _ & _).
  assert (Hframe : ∀ i, i ∉ botWalls g' → i ∉ topWalls g' →
            field_data g' w5 !! i = field_data g' w4 !! i).
  { intros i Hb Ht. rewrite Hd.
    rewrite (setitem_rows_outside _ _ _ _ i F2 Ht).
    apply (setitem_rows_outside _ _ _ _ i F1 Hb). }
  exists w4. split; [done|]. split; [|split; [done|split; [|split]]].
  - rewrite Hd, (setitem_rows_length _ _ _ _ F2),
      (setitem_rows_length _ _ _ _ F1), Hz.
    unfold np.setitem_all. apply length_fmap.
  - intros h Hne. rewrite Hh. by apply list_lookup_insert_ne.
  - intros i row Hrow Hb Ht. rewrite (Hframe i Hb Ht), Hz in Hrow.
    pose proof (setitem_all_entries 0 (uw_new_data (mesh g') 1)) as Hall.
    rewrite Forall_lookup in Hall. by apply (Hall i).
  - unfold through_cell6, bind. rewrite E5, cell6_runs.
    eexists _, _. split; [reflexivity|]. done.
Qed.

(** C3.  The area [boxHeight * boxLength] is 2.0, and the first half of cell
    In[9] computes the average temperature as component 0 of what the integral
    of the temperature field over the mesh evaluates to, divided by that area
    (an IndexError if the integral evaluates to an empty vector). *)
Theorem average_is_integral_over_area (g : Globals7) (w : World) :
  (boxHeight * boxLength)%float = 2.0%float
  ∧ fst (cell9_average g w) =
      match uw_integrate (mesh g) (field_data g w) with
      | x :: _ =>
          Returns (mkGlobals9 g (mkIntegral (temperatureField g) (mesh g))
                     (x / 2.0)%float)
      | [] => Raises IndexError
      end.
Proof.
  split; [reflexivity|]. rewrite cell9_average_runs. simpl.
  by destruct (uw_integrate _ _).
Qed.

(** C2.  In a run in which the average temperature has been computed, the
    notebook raises RuntimeError "Incorrect average temperature produced by
    model. " exactly when [isclose] of the average and 0.5 is false, and when
    it is true the notebook returns without raising. *)
Theorem error_iff_average_not_close (w : World) (g : Globals9)
    (w' : World) :
  before_check w = (Returns g, w') →
  (fst (notebook w)
     = Raises (RuntimeError
                 "Incorrect average temperature produced by model. ")
   ↔ numpy_isclose (avtemp g) 0.5 = false)
  ∧ (numpy_isclose (avtemp g) 0.5 = true → fst (notebook w) = Returns g).
Proof.
  intros E. rewrite notebook_is_check_after_average. unfold bind.
  rewrite E, cell9_check_runs. simpl.
  destruct (numpy_isclose _ _); simpl; split; try split; done.
Qed.

(** C10.  Cell In[9] writes no array, displays nothing and rebinds no earlier
    name, whether it returns or raises; so at the end of the notebook the
    arrays are those the solver left. *)
Theorem check_only_reads (g : Globals7) (w w0 : World) :
  heap (snd (cell9 g w)) = heap w
  ∧ outputs (snd (cell9 g w)) = outputs w
  ∧ match fst (cell9 g w) with
    | Returns g' => g7 g' = g
    | Raises _ => True
    end
  ∧ heap (snd (notebook w0)) = heap (snd (through_cell7 w0)).
Proof.
  assert (H9 : ∀ g w, heap (snd (cell9 g w)) = heap w
             ∧ outputs (snd (cell9 g w)) = outputs w
             ∧ match fst (cell9 g w) with
               | Returns g' => g7 g' = g
               | Raises _ => True
               end).
  { clear. intros g w. unfold cell9, bind. rewrite cell9_average_runs. simpl.
    destruct (uw_integrate _ _); [done|].
    rewrite cell9_check_runs. simpl. by destruct (numpy_isclose _ _). }
  destruct (H9 g w) as (? & ? & ?). do 3 (split; [done|]).
  unfold notebook, through_cell8, bind.
  destruct (through_cell7 w0) as [[g' |e] w7]; [|done].
  rewrite cell8_runs.
  match goal with |- context [cell9 ?a ?b] =>
    destruct (H9 a b) as (Hh & _); destruct (cell9 a b) as [[g9|e] w9]
  end; simpl in *; by rewrite Hh.
Qed.

End Cells.

(** ** The statements on concrete data *)

Section OnToy.

Import on_toy.

#[local] Existing Instance toy.libraries.

Ltac decided :=
  match goal with
  | |- ?P => apply (bool_decide_unpack P); vm_compute; exact I
  end.

Lemma dirichlet_condition_on_both_walls_witness :
  uw_specialSets (mesh g3) !! "Bottom_VertexSet" = Some (toy.bottom m)
  ∧ uw_specialSets (mesh g3) !! "Top_VertexSet" = Some (toy.top m)
  ∧ ∃ g' w',
      cell4 g3 w3 = (Returns g', w')
      ∧ indexSetsPerDof (tempBC g') = [bcWalls g']
      ∧ ∀ i, i ∈ bcWalls g' ↔ i ∈ toy.bottom m ∨ i ∈ toy.top m.
Proof.
  assert (Hb : uw_specialSets (mesh g3) !! "Bottom_VertexSet"
               = Some (toy.bottom m)) by (vm_compute; reflexivity).
  assert (Ht : uw_specialSets (mesh g3) !! "Top_VertexSet"
               = Some (toy.top m)) by (vm_compute; reflexivity).
  split; [exact Hb|]. split; [exact Ht|].
  destruct (dirichlet_condition_on_both_walls g3 w3 _ _ Hb Ht)
    as (g' & w' & E & _ & _ & _ & _ & _ & Hs & Hi & _).
  exists g', w'. split; [exact E|]. split; [exact Hs|exact Hi].
Defined.

Lemma toy_through_cell4 : through_cell4 fresh_kernel = (Returns g4, w4).
Proof. vm_compute. reflexivity. Qed.

Lemma toy_through_cell5 : through_cell5 fresh_kernel = (Returns g4, w5).
Proof. vm_compute. reflexivity. Qed.

Lemma toy_before_check : before_check fresh_kernel = (Returns g9, w9).
Proof. vm_compute. reflexivity. Qed.

Lemma wall_values_assigned_witness :
  set_Forall (λ i, i < length (field_data g4 w4)) (botWalls g4 ∪ topWalls g4)
  ∧ botWalls g4 ## topWalls g4
  ∧ ∃ w',
      cell5 g4 w4 = (Returns g4, w')
      ∧ (∃ row, field_data g4 w' !! 0 = Some row
           ∧ Forall (eq 1.0%float) row)
      ∧ (∃ row, field_data g4 w' !! 152 = Some row
           ∧ Forall (eq 0.0%float) row).
Proof.
  assert (Hr : set_Forall (λ i, i < length (field_data g4 w4))
                 (botWalls g4 ∪ topWalls g4)) by decided.
  assert (Hd : botWalls g4 ## topWalls g4) by decided.
  split; [exact Hr|]. split; [exact Hd|].
  destruct (wall_values_assigned g4 w4 Hr Hd) as (w' & E & Hb & Ht).
  exists w'. split; [exact E|]. split.
  - destruct (Hb 0) as (old & row & _ & Hrow & _ & Hall); [decided|].
    exists row. split; [exact Hrow|exact Hall].
  - destruct (Ht 152) as (old & row & _ & Hrow & _ & Hall); [decided|].
    exists row. split; [exact Hrow|exact Hall].
Defined.

Lemma interior_untouched_before_solve_witness :
  through_cell5 fresh_kernel = (Returns g4, w5)
  ∧ length (field_data g4 w5) = 153
  ∧ (∀ i row, field_data g4 w5 !! i = Some row →
       i ∉ botWalls g4 → i ∉ topWalls g4 → Forall (eq 0.0%float) row)
  ∧ ∃ g6 w6,
      through_cell6 fresh_kernel = (Returns g6, w6) ∧ heap w6 = heap w5.
Proof.
  split; [exact toy_through_cell5|].
  destruct (interior_untouched_before_solve fresh_kernel g4 w5
              toy_through_cell5)
    as (w4' & _ & Hlen & _ & _ & Hz & g6' & w6 & E6 & _ & Hh).
  split; [rewrite Hlen; vm_compute; reflexivity|].
  split; [exact Hz|]. exists g6', w6. split; [exact E6|exact Hh].
Defined.

(** C7, as the specification words it, fails: on [toy.libraries] the steps of
    the run are not the listed ones, because the figure is shown once before
    the solve and once after it. *)
Lemma steps_are_not_the_listed_order :
  phases (snd (notebook (lib := toy.libraries) fresh_kernel)) ≠ listed_order.
Proof. vm_compute. discriminate. Qed.

Lemma error_iff_average_not_close_witness :
  before_check fresh_kernel = (Returns g9, w9)
  ∧ (fst (notebook fresh_kernel)
       = Raises (RuntimeError
                   "Incorrect average temperature produced by model. ")
     ↔ numpy_isclose (avtemp g9) 0.5 = false)
  ∧ fst (notebook fresh_kernel) = Returns g9.
Proof.
  split; [exact toy_before_check|].
  destruct (error_iff_average_not_close fresh_kernel g9 w9 toy_before_check)
    as (Hiff & Hok).
  split; [exact Hiff|]. apply Hok. vm_compute. reflexivity.
Defined.

(** On [toy.libraries] the whole notebook returns, with an average
    temperature of exactly 0.5. *)
Example toy_run_passes :
  ∃ w, notebook fresh_kernel = (Returns g9, w) ∧ avtemp g9 = 0.5%float.
Proof. eexists. split; [vm_compute|]; reflexivity. Qed.

(** With a solve that does nothing, the average is that of the initial field,
    0.0625, and the test raises. *)
Example idle_run_raises :
  fst (notebook (lib := toy.idle) fresh_kernel)
  = Raises (RuntimeError "Incorrect average temperature produced by model. ").
Proof. vm_compute. reflexivity. Qed.

(** The order of the two assignments of cell In[5] shows when the walls share
    a vertex: the top value, assigned last, is the one that stays. *)
Example shared_vertex_takes_the_top_value :
  let g := mkGlobals4 g3 {[0]} {[0]} {[0]} (mkDirichletCondition T [{[0]}]) in
  field_data g (snd (cell5 g w3)) !! 0 = Some [0%float].
Proof. vm_compute. reflexivity. Qed.

End OnToy.

(** * Further properties of the cells *)

Section Failures.

Context `{lib : Libraries}.

Implicit Types (a : ndarray) (s : IndexSet) (v : float).

Lemma setitem_rows_None s v a :
  np.setitem_rows s v a = None ↔ ¬ set_Forall (λ i, i < length a) s.
Proof. unfold np.setitem_rows. case_decide; split; intros; done. Qed.

Lemma setitem_rows_Some s v a :
  is_Some (np.setitem_rows s v a) ↔ set_Forall (λ i, i < length a) s.
Proof.
  unfold np.setitem_rows. case_decide; split; intros H'; try done.
  all: first [by eauto | by destruct H'].
Qed.

Lemma setitem_rows_lookup s v a a' i :
  np.setitem_rows s v a = Some a' →
  a' !! i = (λ row, if decide (i ∈ s) then filled v row else row) <$> a !! i.
Proof.
  unfold np.setitem_rows. case_decide; [|done].
  intros [= <-]. apply list_lookup_imap.
Qed.

(** Cell In[5], case by case on the two bounds checks. *)
Lemma cell5_runs (g : Globals4) (w : World) :
  cell5 g w =
    match np.setitem_rows (botWalls g) 1 (field_data g w) with
    | None => (Raises IndexError, w)
    | Some a1 =>
        match np.setitem_rows (topWalls g) 0 a1 with
        | None =>
            (Raises IndexError,
             {| heap := <[data (temperatureField g) := a1]> (heap w);
                trace := trace w; outputs := outputs w |})
        | Some a2 =>
            (Returns g,
             {| heap := <[data (temperatureField g) := a2]> (heap w);
                trace := trace w; outputs := outputs w |})
        end
    end.
Proof.
  unfold cell5, field_data.
  unfold bind at 1. rewrite data_setitem_rows_runs.
  destruct (np.setitem_rows (botWalls g) _ _) as [a1|] eqn:E1; [|done].
  unfold bind at 1. rewrite data_setitem_rows_runs. simpl.
  rewrite load_after_store by (by apply setitem_rows_length in E1).
  destruct (np.setitem_rows (topWalls g) _ _) as [a2|] eqn:E2; [|done].
  simpl. by rewrite list_insert_insert_eq.
Qed.

(** X1.  Cell In[5] raises IndexError exactly when some vertex of the bottom
    or the top wall set is not an index of the field data; otherwise it
    returns; it raises nothing else. *)
Theorem cell5_fails_iff_out_of_bounds (g : Globals4) (w : World) :
  let in_bounds :=
    set_Forall (λ i, i < length (field_data g w))
      (botWalls g ∪ topWalls g) in
  (fst (cell5 g w) = Raises IndexError ↔ ¬ in_bounds)
  ∧ (fst (cell5 g w) = Returns g ↔ in_bounds)
  ∧ (fst (cell5 g w) = Raises IndexError ∨ fst (cell5 g w) = Returns g).
Proof.
  simpl. rewrite cell5_runs.
  destruct (np.setitem_rows (botWalls g) _ _) as [a1|] eqn:E1.
  - assert (H1 : set_Forall (λ i, i < length (field_data g w)) (botWalls g))
      by (apply (setitem_rows_Some _ 1%float); rewrite E1; eauto).
    destruct (np.setitem_rows (topWalls g) _ _) as [a2|] eqn:E2.
    + assert (H2 : set_Forall (λ i, i < length a1) (topWalls g))
        by (apply (setitem_rows_Some _ 0%float); rewrite E2; eauto).
      rewrite (setitem_rows_length _ _ _ _ E1) in H2.
      assert (set_Forall (λ i, i < length (field_data g w))
                (botWalls g ∪ topWalls g))
        by (by apply set_Forall_union).
      simpl. split; [split; [done|tauto]|]. split; [tauto|by right].
    + apply setitem_rows_None in E2.
      rewrite (setitem_rows_length _ _ _ _ E1) in E2.
      assert (¬ set_Forall (λ i, i < length (field_data g w))
                (botWalls g ∪ topWalls g)).
      { intros H. apply E2. intros i Hi. apply H. set_solver. }
      simpl. split; [tauto|]. split; [split; [done|tauto]|by left].
  - apply setitem_rows_None in E1.
    assert (¬ set_Forall (λ i, i < length (field_data g w))
              (botWalls g ∪ topWalls g)).
    { intros H. apply E1. intros i Hi. apply H. set_solver. }
    simpl. split; [tauto|]. split; [split; [done|tauto]|by left].
Qed.

(** X2.  When a vertex of the bottom wall set is out of bounds, cell In[5]
    raises IndexError and leaves the world exactly as it found it: no row of
    the field has been assigned. *)
Theorem bottom_out_of_bounds_changes_nothing (g : Globals4) (w : World) :
  ¬ set_Forall (λ i, i < length (field_data g w)) (botWalls g) →
  cell5 g w = (Raises IndexError, w).
Proof.
  intros H. rewrite cell5_runs.
  by rewrite (proj2 (setitem_rows_None (botWalls g) 1 (field_data g w)) H).
Qed.

(** X3.  When the bottom wall set is in bounds and a vertex of the top wall
    set is not, cell In[5] raises IndexError after the first assignment has
    taken effect: the rows of the bottom wall hold 1.0, every other row is as
    before, and nothing else in the world has changed. *)
Theorem top_out_of_bounds_keeps_bottom_values (g : Globals4) (w : World) :
  set_Forall (λ i, i < length (field_data g w)) (botWalls g) →
  ¬ set_Forall (λ i, i < length (field_data g w)) (topWalls g) →
  ∃ w',
    cell5 g w = (Raises IndexError, w')
    ∧ (∀ i, field_data g w' !! i =
            (λ row, if decide (i ∈ botWalls g) then filled 1.0 row else row)
              <$> field_data g w !! i)
    ∧ (∀ h, h ≠ data (temperatureField g) → heap w' !! h = heap w !! h)
    ∧ trace w' = trace w ∧ outputs w' = outputs w.
Proof.
  intros Hb Ht. rewrite cell5_runs.
  destruct (proj2 (setitem_rows_Some (botWalls g) 1 (field_data g w)) Hb)
    as [a1 E1].
  rewrite E1.
  rewrite (proj2 (setitem_rows_None (topWalls g) 0 a1))
    by (by rewrite (setitem_rows_length _ _ _ _ E1)).
  eexists. split; [reflexivity|]. simpl. split; [|split; [|done]].
  - intros i. unfold field_data at 1. simpl.
    rewrite load_after_store by (by apply setitem_rows_length in E1).
    apply (setitem_rows_lookup _ _ _ _ i E1).
  - intros h Hne. by apply list_lookup_insert_ne.
Qed.

(** X4.  When cell In[5] returns, the field afterwards is, row by row: filled
    with 0.0 on the top wall, filled with 1.0 on the rest of the bottom wall,
    and unchanged elsewhere, whether or not the two wall sets overlap; the
    shape of the array, the other arrays, the trace and the outputs are
    unchanged. *)
Theorem cell5_row_by_row (g g' : Globals4) (w w' : World) :
  cell5 g w = (Returns g', w') →
  g' = g
  ∧ (∀ i, field_data g w' !! i =
          (λ row, if decide (i ∈ topWalls g) then filled 0.0 row
                  else if decide (i ∈ botWalls g) then filled 1.0 row
                  else row) <$> field_data g w !! i)
  ∧ length <$> field_data g w' = length <$> field_data g w
  ∧ (∀ h, h ≠ data (temperatureField g) → heap w' !! h = heap w !! h)
  ∧ trace w' = trace w ∧ outputs w' = outputs w.
Proof.
  intros E.
  destruct (cell5_returns _ _ _ _ E)
    as (-> & Ht & Ho & a1 & a2 & E1 & E2 & Hh & Hd).
  assert (Hrows : ∀ i, field_data g w' !! i =
            (λ row, if decide (i ∈ topWalls g) then filled 0.0 row
                    else if decide (i ∈ botWalls g) then filled 1.0 row
                    else row) <$> field_data g w !! i).
  { intros i. rewrite Hd, (setitem_rows_lookup _ _ _ _ i E2),
      (setitem_rows_lookup _ _ _ _ i E1).
    destruct (field_data g w !! i) as [row|]; simpl; [|done].
    f_equal. case_decide; [|done].
    case_decide; unfold filled; by rewrite <- ?list_fmap_compose. }
  split; [done|]. split; [done|]. split; [|split; [|done]].
  - apply list_eq. intros i. rewrite !list_lookup_fmap, Hrows.
    destruct (field_data g w !! i) as [row|]; simpl; [|done].
    f_equal. repeat case_decide; unfold filled; by rewrite ?length_fmap.
  - intros h Hne. rewrite Hh. by apply list_lookup_insert_ne.
Qed.

End Failures.

(** * Whole runs *)

Section Runs.

Context `{lib : Libraries}.

Lemma bind_raises {A B} (m : Py A) (k : A → Py B) w e w' :
  m w = (Raises e, w') → bind m k w = (Raises e, w').
Proof. unfold bind. by intros ->. Qed.

Lemma bind_returns {A B} (m : Py A) (k : A → Py B) w a w' :
  m w = (Returns a, w') → bind m k w = k a w'.
Proof. unfold bind. by intros ->. Qed.

(** The world cell In[3] leaves. *)
Lemma world_after_cell3 (w : World) :
  ∃ g,
    through_cell3 w = (Returns g, snd (through_cell3 w))
    ∧ mesh g = the_mesh
    ∧ temperatureField g = mkMeshVariable the_mesh 1 (length (heap w))
    ∧ heap (snd (through_cell3 w)) =
        <[length (heap w) := np.setitem_all 0 (uw_new_data the_mesh 1)]>
          (heap w ++ [uw_new_data the_mesh 1])
    ∧ trace (snd (through_cell3 w)) =
        trace w ++ [assign_event "boxHeight"; assign_event "boxLength";
                    assign_event "resx"; assign_event "resy";
                    FeMesh_Cartesian_call the_mesh;
                    add_variable_call the_mesh 1]
    ∧ outputs (snd (through_cell3 w)) = outputs w.
Proof. rewrite through_cell3_runs. eexists. by repeat split. Qed.

(** Cell In[4] after cell In[3], case by case on the two dictionary lookups. *)
Lemma through_cell4_cases (w : World) :
  let w3 := snd (through_cell3 w) in
  let T := mkMeshVariable the_mesh 1 (length (heap w)) in
  through_cell4 w =
    match uw_specialSets the_mesh !! "Bottom_VertexSet" with
    | None => (Raises (KeyError "Bottom_VertexSet"), w3)
    | Some bot =>
        match uw_specialSets the_mesh !! "Top_VertexSet" with
        | None => (Raises (KeyError "Top_VertexSet"), w3)
        | Some top =>
            let bc := mkDirichletCondition T [IndexSet_add bot top] in
            (Returns (mkGlobals4 (mkGlobals3 (mkGlobals2 the_mesh) T)
                        bot top (IndexSet_add bot top) bc),
             {| heap := heap w3;
                trace := trace w3 ++ [DirichletCondition_call bc];
                outputs := outputs w3 |})
        end
    end.
Proof.
  cbv zeta. unfold through_cell4, bind. rewrite through_cell3_runs.
  unfold cell4, specialSets_getitem, bind. simpl.
  change (mkFeMesh "Q1/dQ0" (resx, resy) (0, 0)%float (boxLength, boxHeight))
    with the_mesh.
  destruct (uw_specialSets the_mesh !! "Bottom_VertexSet"); [|done].
  by destruct (uw_specialSets the_mesh !! "Top_VertexSet").
Qed.

(** What a run that has got through cell In[5] has bound and built. *)
Lemma through_cell5_returns (w : World) (g : Globals4) (w5 : World) :
  through_cell5 w = (Returns g, w5) →
  mesh g = the_mesh
  ∧ temperatureField g = mkMeshVariable the_mesh 1 (length (heap w))
  ∧ uw_specialSets the_mesh !! "Bottom_VertexSet" = Some (botWalls g)
  ∧ uw_specialSets the_mesh !! "Top_VertexSet" = Some (topWalls g)
  ∧ tempBC g = mkDirichletCondition (temperatureField g)
                 [IndexSet_add (botWalls g) (topWalls g)]
  ∧ length (heap w5) = S (length (heap w))
  ∧ (∀ h, h < length (heap w) → heap w5 !! h = heap w !! h)
  ∧ outputs w5 = outputs w.
Proof.
  unfold through_cell5, bind. rewrite through_cell4_cases. simpl.
  destruct (world_after_cell3 w) as (g3' & _ & _ & _ & Hh & _ & Ho).
  destruct (uw_specialSets the_mesh !! "Bottom_VertexSet") as [bot|]; [|done].
  destruct (uw_specialSets the_mesh !! "Top_VertexSet") as [top|]; [|done].
  intros E. destruct (cell5_returns _ _ _ _ E)
    as (-> & _ & Ho5 & a1 & a2 & _ & _ & Hh5 & _).
  simpl in *. do 5 (split; [done|]). rewrite Hh5, Hh. split; [|split].
  - rewrite !length_insert, length_app. simpl. lia.
  - intros h Hlt. rewrite !list_lookup_insert_ne by lia.
    by apply lookup_app_l.
  - by rewrite Ho5.
Qed.

(** Cells In[6] to In[8] after a run through cell In[5]. *)
Lemma through_cell8_after_cell5 (w : World) (g : Globals4) (w5 : World) :
  through_cell5 w = (Returns g, w5) →
  let T := temperatureField g in
  let fig := the_figure (mesh g) T in
  let sys := the_system T (tempBC g) in
  let solved := <[data T := uw_solve sys (field_data g w5)]> (heap w5) in
  through_cell8 w =
    (Returns (mkGlobals7 (mkGlobals6 g fig) sys (mkSolver sys)),
     {| heap := solved;
        trace := trace w5 ++ [Figure_call (800, 400)%Z; objects_Mesh_call;
                              append_call; objects_Surface_call; append_call;
                              show_call; SteadyStateHeat_call sys;
                              Solver_call; solve_call; show_call];
        outputs := outputs w5 ++ [glucifer_render fig (heap w5);
                                  glucifer_render fig solved] |}).
Proof.
  intros E. simpl. unfold through_cell8, through_cell7, through_cell6, bind.
  rewrite E, cell6_runs, cell7_runs, cell8_runs. simpl.
  unfold the_figure, the_system. by rewrite <- !app_assoc.
Qed.

Lemma field_after_solve (w : World) (g : Globals4) (w5 : World) a :
  through_cell5 w = (Returns g, w5) →
  <[data (temperatureField g) := a]> (heap w5)
    !!! data (temperatureField g) = a.
Proof.
  intros E.
  destruct (through_cell5_returns _ _ _ E) as (_ & -> & _ & _ & _ & Hl & _).
  simpl. apply list_lookup_total_insert_eq. lia.
Qed.

Lemma notebook_after_raise (w : World) (e : exn) (w5 : World) :
  through_cell5 w = (Raises e, w5) → notebook w = (Raises e, w5).
Proof.
  intros E. unfold notebook, through_cell8, through_cell7, through_cell6.
  by do 4 apply bind_raises.
Qed.

Lemma cell9_world (g : Globals7) (w : World) :
  heap (snd (cell9 g w)) = heap w ∧ outputs (snd (cell9 g w)) = outputs w.
Proof.
  unfold cell9, bind. rewrite cell9_average_runs. simpl.
  destruct (uw_integrate _ _); [done|].
  rewrite cell9_check_runs. simpl. by destruct (numpy_isclose _ _).
Qed.

Lemma cell9_outcome (g : Globals7) (w : World) :
  fst (cell9 g w) =
    match uw_integrate (mesh g) (field_data g w) with
    | [] => Raises IndexError
    | x :: _ =>
        if numpy_isclose (x / 2.0) 0.5
        then Returns (mkGlobals9 g (mkIntegral (temperatureField g) (mesh g))
                        (x / 2.0)%float)
        else Raises (RuntimeError message)
    end.
Proof.
  unfold cell9, bind. rewrite cell9_average_runs. simpl.
  destruct (uw_integrate _ _) as [|x rest]; [done|].
  rewrite cell9_check_runs. simpl.
  change (boxHeight * boxLength)%float with 2.0%float.
  by destruct (numpy_isclose _ _).
Qed.

(** X5.  When the mesh has no bottom wall set, or no top wall set, the
    notebook raises KeyError for the first of the two names that is missing,
    and the world is as cell In[3] left it: the only events are the parameter
    assignments, the mesh and the variable; nothing is displayed. *)
Theorem missing_wall_set_stops_the_run (w : World) :
  uw_specialSets the_mesh !! "Bottom_VertexSet" = None
  ∨ uw_specialSets the_mesh !! "Top_VertexSet" = None →
  ∃ key,
    notebook w = (Raises (KeyError key), snd (through_cell3 w))
    ∧ uw_specialSets the_mesh !! key = None
    ∧ (key = "Bottom_VertexSet"
       ∨ key = "Top_VertexSet"
         ∧ is_Some (uw_specialSets the_mesh !! "Bottom_VertexSet"))
    ∧ trace (snd (notebook w)) =
        trace w ++ [assign_event "boxHeight"; assign_event "boxLength";
                    assign_event "resx"; assign_event "resy";
                    FeMesh_Cartesian_call the_mesh;
                    add_variable_call the_mesh 1]
    ∧ outputs (snd (notebook w)) = outputs w.
Proof.
  intros H.
  destruct (world_after_cell3 w) as (g3' & _ & _ & _ & _ & Ht & Ho).
  assert (∃ key, through_cell4 w
                   = (Raises (KeyError key), snd (through_cell3 w))
            ∧ uw_specialSets the_mesh !! key = None
            ∧ (key = "Bottom_VertexSet"
               ∨ key = "Top_VertexSet"
                 ∧ is_Some (uw_specialSets the_mesh !! "Bottom_VertexSet")))
    as (key & E4 & Hk & Hfirst).
  { rewrite through_cell4_cases. simpl.
    destruct (uw_specialSets the_mesh !! "Bottom_VertexSet") as [bot|] eqn:Eb.
    - destruct H as [H|H]; [done|]. rewrite H.
      exists "Top_VertexSet". split; [done|]. split; [done|]. right. eauto.
    - exists "Bottom_VertexSet". split; [done|]. split; [done|]. by left. }
  exists key.
  assert (E : notebook w = (Raises (KeyError key), snd (through_cell3 w))).
  { apply notebook_after_raise. unfold through_cell5. by apply bind_raises. }
  rewrite E. simpl. by repeat split.
Qed.

Lemma field_length_after_cell4 (w : World) (g : Globals4) (w4 : World) :
  through_cell4 w = (Returns g, w4) →
  length (field_data g w4) = length (uw_new_data the_mesh 1).
Proof.
  intros E4. destruct (through_cell4_returns _ _ _ E4) as (-> & _).
  revert E4. rewrite through_cell4_cases. simpl.
  destruct (uw_specialSets the_mesh !! "Bottom_VertexSet"); [|done].
  destruct (uw_specialSets the_mesh !! "Top_VertexSet"); [|done].
  intros [= <- _]. simpl. unfold np.setitem_all. apply length_fmap.
Qed.

(** X6.  A run gets through cell In[5] only if the mesh has both wall sets,
    which are then the values of [botWalls] and [topWalls], and every vertex
    in them is an index of the new variable's data array. *)
Theorem through_cell5_needs_walls_in_bounds (w : World) (g : Globals4)
    (w5 : World) :
  through_cell5 w = (Returns g, w5) →
  uw_specialSets the_mesh !! "Bottom_VertexSet" = Some (botWalls g)
  ∧ uw_specialSets the_mesh !! "Top_VertexSet" = Some (topWalls g)
  ∧ set_Forall (λ i, i < length (uw_new_data the_mesh 1))
      (botWalls g ∪ topWalls g).
Proof.
  intros E5.
  destruct (through_cell5_returns _ _ _ E5) as (_ & _ & Hb & Ht & _).
  do 2 (split; [done|]).
  unfold through_cell5, bind in E5.
  destruct (through_cell4 w) as [[g' |e] w4] eqn:E4; [|done].
  destruct (cell5_returns _ _ _ _ E5) as (-> & _ & _ & a1 & a2 & E1 & E2 & _).
  rewrite <- (field_length_after_cell4 _ _ _ E4). apply set_Forall_union.
  - apply (setitem_rows_Some _ 1%float). rewrite E1. eauto.
  - rewrite <- (setitem_rows_length _ _ _ _ E1).
    apply (setitem_rows_Some _ 0%float). rewrite E2. eauto.
Qed.

Lemma notebook_after_cell5 (w : World) (g : Globals4) (w5 : World) :
  through_cell5 w = (Returns g, w5) →
  let T := temperatureField g in
  let fig := the_figure (mesh g) T in
  let sys := the_system T (tempBC g) in
  let solved := <[data T := uw_solve sys (field_data g w5)]> (heap w5) in
  notebook w =
    cell9 (mkGlobals7 (mkGlobals6 g fig) sys (mkSolver sys))
      {| heap := solved;
         trace := trace w5 ++ [Figure_call (800, 400)%Z; objects_Mesh_call;
                               append_call; objects_Surface_call;
                               append_call; show_call;
                               SteadyStateHeat_call sys; Solver_call;
                               solve_call; show_call];
         outputs := outputs w5 ++ [glucifer_render fig (heap w5);
                                   glucifer_render fig solved] |}.
Proof.
  intros E. cbv zeta. unfold notebook.
  by rewrite (bind_returns _ _ _ _ _ (through_cell8_after_cell5 _ _ _ E)).
Qed.

(** X7.  In a run that has got through cell In[5], cell In[7] builds the
    system on the temperature field with diffusivity 1.0 and the Dirichlet
    condition of cell In[4], builds the solver on that system, and the solve
    replaces the content of the field by what the library computes from the
    system and the field as cell In[5] left it (wall values assigned); no
    other array changes. *)
Theorem solve_replaces_the_field (w : World) (g : Globals4) (w5 : World) :
  through_cell5 w = (Returns g, w5) →
  ∃ g7 w7,
    through_cell7 w = (Returns g7, w7)
    ∧ g4 g7 = g
    ∧ heatequation g7
        = mkSteadyStateHeat (temperatureField g) 1.0 (tempBC g)
    ∧ system (heatsolver g7) = heatequation g7
    ∧ field_data g w7 = uw_solve (heatequation g7) (field_data g w5)
    ∧ length (heap w7) = length (heap w5)
    ∧ (∀ h, h ≠ data (temperatureField g) → heap w7 !! h = heap w5 !! h).
Proof.
  intros E. unfold through_cell7, through_cell6, bind.
  rewrite E, cell6_runs, cell7_runs. simpl.
  eexists _, _. split; [reflexivity|]. simpl. do 3 (split; [done|]).
  split; [|split].
  - unfold field_data at 1. simpl. apply (field_after_solve _ _ _ _ E).
  - apply length_insert.
  - intros h Hne. by apply list_lookup_insert_ne.
Qed.

(** X8.  In a run that has got through cell In[5], the outcome of the
    notebook is decided by the integral of the solved field: IndexError if it
    evaluates to the empty vector; otherwise, with [x] its component 0, the
    notebook returns with [avtemp = x / 2.0] when [isclose (x / 2.0) 0.5], and
    raises the RuntimeError when not.  The field at the end is the solved
    field. *)
Theorem outcome_of_the_notebook (w : World) (g : Globals4) (w5 : World) :
  through_cell5 w = (Returns g, w5) →
  let T := temperatureField g in
  let sys := the_system T (tempBC g) in
  let solution := uw_solve sys (field_data g w5) in
  fst (notebook w) =
    match uw_integrate (mesh g) solution with
    | [] => Raises IndexError
    | x :: _ =>
        if numpy_isclose (x / 2.0) 0.5
        then Returns
               (mkGlobals9
                  (mkGlobals7 (mkGlobals6 g (the_figure (mesh g) T)) sys
                     (mkSolver sys))
                  (mkIntegral T (mesh g)) (x / 2.0)%float)
        else Raises (RuntimeError message)
    end
  ∧ field_data g (snd (notebook w)) = solution.
Proof.
  intros E. cbv zeta. rewrite (notebook_after_cell5 _ _ _ E). split.
  - rewrite cell9_outcome. unfold field_data at 1. simpl.
    by rewrite (field_after_solve _ _ _ _ E).
  - unfold field_data at 1. rewrite (proj1 (cell9_world _ _)). simpl.
    apply (field_after_solve _ _ _ _ E).
Qed.

(** X9.  In a run that has got through cell In[5], the notebook displays
    exactly two images, both of the one figure of size (800, 400) holding the
    mesh and the surface of the temperature field in "blue white red": the
    first rendered from the arrays as cell In[5] left them, the second from
    the arrays after the solve. *)
Theorem two_images_of_one_figure (w : World) (g : Globals4) (w5 : World) :
  through_cell5 w = (Returns g, w5) →
  let T := temperatureField g in
  let fig := mkFigure (800, 400)%Z
               [objects_Mesh (mesh g);
                objects_Surface (mesh g) T "blue white red"] in
  let sys := the_system T (tempBC g) in
  outputs (snd (notebook w)) =
    outputs w ++
      [glucifer_render fig (heap w5);
       glucifer_render fig
         (<[data T := uw_solve sys (field_data g w5)]> (heap w5))].
Proof.
  intros E. cbv zeta. rewrite (notebook_after_cell5 _ _ _ E).
  rewrite (proj2 (cell9_world _ _)). simpl.
  by destruct (through_cell5_returns _ _ _ E) as (_ & _ & _ & _ & _ & _ & _ & ->).
Qed.

(** X12.  When both wall sets exist but a vertex in them is not an index of
    the field data, the notebook ends in IndexError in cell In[5]: the
    condition has been built, but no figure has been shown, the solver has
    not been entered and no integral has been taken. *)
Theorem out_of_bounds_wall_stops_the_run (w : World) (bot top : IndexSet) :
  uw_specialSets the_mesh !! "Bottom_VertexSet" = Some bot →
  uw_specialSets the_mesh !! "Top_VertexSet" = Some top →
  ¬ set_Forall (λ i, i < length (uw_new_data the_mesh 1)) (bot ∪ top) →
  fst (notebook w) = Raises IndexError
  ∧ trace (snd (notebook w)) =
      trace w ++ [assign_event "boxHeight"; assign_event "boxLength";
                  assign_event "resx"; assign_event "resy";
                  FeMesh_Cartesian_call the_mesh;
                  add_variable_call the_mesh 1;
                  DirichletCondition_call
                    (mkDirichletCondition
                       (mkMeshVariable the_mesh 1 (length (heap w)))
                       [IndexSet_add bot top])]
  ∧ outputs (snd (notebook w)) = outputs w.
Proof.
  intros Hb Ht Hr.
  destruct (through_cell4 w) as [o w4] eqn:E4.
  pose proof E4 as E4'. rewrite through_cell4_cases, Hb, Ht in E4'.
  simpl in E4'. injection E4' as <- Hw4.
  pose proof (field_length_after_cell4 _ _ _ E4) as Hl.
  destruct (through_cell4_returns _ _ _ E4) as (_ & Ho & Htr).
  match type of E4 with _ = (Returns ?g0, _) => set (g := g0) in * end.
  assert (E5 : ∃ w5, through_cell5 w = (Raises IndexError, w5)
                 ∧ trace w5 = trace w4 ∧ outputs w5 = outputs w4).
  { unfold through_cell5, bind. rewrite E4, cell5_runs.
    destruct (np.setitem_rows (botWalls g) 1 (field_data g w4))
      as [a1|] eqn:E1; [|eauto].
    destruct (np.setitem_rows (topWalls g) 0 a1) as [a2|] eqn:E2; [|eauto].
    exfalso. apply Hr. rewrite <- Hl. apply set_Forall_union.
    - apply (setitem_rows_Some _ 1%float). subst g. simpl in *.
      rewrite E1. eauto.
    - rewrite <- (setitem_rows_length _ _ _ _ E1).
      apply (setitem_rows_Some _ 0%float). subst g. simpl in *.
      rewrite E2. eauto. }
  destruct E5 as (w5 & E5 & Ht5 & Ho5).
  rewrite (notebook_after_raise _ _ _ E5). simpl.
  rewrite Ht5, Ho5, Htr, Ho. done.
Qed.

End Runs.

(** ** The further properties on concrete data *)

Section OnFaulty.

Import on_toy.

Ltac decided :=
  match goal with
  | |- ?P => apply (bool_decide_unpack P); vm_compute; exact I
  end.

Lemma bottom_out_of_bounds_changes_nothing_witness :
  ¬ set_Forall (λ i, i < length (field_data g4 faulty.narrow_w4))
      (botWalls g4)
  ∧ length (field_data g4 faulty.narrow_w4) = 10
  ∧ 0 ∈ botWalls g4 ∧ 16 ∈ botWalls g4
  ∧ cell5 g4 faulty.narrow_w4 = (Raises IndexError, faulty.narrow_w4)
  ∧ field_data g4 (snd (cell5 g4 faulty.narrow_w4)) !! 0
      = Some [0.0%float].
Proof.
  assert (H : ¬ set_Forall
                (λ i, i < length (field_data g4 faulty.narrow_w4))
                (botWalls g4)) by decided.
  split; [exact H|].
  split; [vm_compute; reflexivity|].
  split; [decided|]. split; [decided|].
  rewrite (bottom_out_of_bounds_changes_nothing g4 faulty.narrow_w4 H).
  split; [reflexivity|]. vm_compute. reflexivity.
Defined.

Lemma top_out_of_bounds_keeps_bottom_values_witness :
  set_Forall (λ i, i < length (field_data g4 faulty.short_w4)) (botWalls g4)
  ∧ ¬ set_Forall (λ i, i < length (field_data g4 faulty.short_w4))
        (topWalls g4)
  ∧ ∃ w',
      cell5 g4 faulty.short_w4
        = (Raises IndexError, w')
      ∧ field_data g4 w' !! 0 = Some [1.0%float]
      ∧ trace w' = trace faulty.short_w4.
Proof.
  assert (Hb : set_Forall
                 (λ i, i < length (field_data g4 faulty.short_w4))
                 (botWalls g4)) by decided.
  assert (Ht : ¬ set_Forall
                 (λ i, i < length (field_data g4 faulty.short_w4))
                 (topWalls g4)) by decided.
  split; [exact Hb|]. split; [exact Ht|].
  destruct (top_out_of_bounds_keeps_bottom_values
              g4 faulty.short_w4 Hb Ht)
    as (w' & E & Hrows & _ & Htr & _).
  exists w'. split; [exact E|]. split; [|exact Htr].
  rewrite (Hrows 0). vm_compute. reflexivity.
Defined.

Lemma toy_cell5 : cell5 g4 w4 = (Returns g4, w5).
Proof. vm_compute. reflexivity. Qed.

Lemma cell5_row_by_row_witness :
  cell5 g4 w4 = (Returns g4, w5)
  ∧ field_data g4 w5 !! 0 = Some [1.0%float]
  ∧ field_data g4 w5 !! 17 = Some [0.0%float]
  ∧ field_data g4 w5 !! 152 = Some [0.0%float]
  ∧ length <$> field_data g4 w5 = length <$> field_data g4 w4.
Proof.
  split; [exact toy_cell5|].
  destruct (cell5_row_by_row g4 g4 w4 w5 toy_cell5)
    as (_ & Hrows & Hshape & _).
  split; [rewrite (Hrows 0); vm_compute; reflexivity|].
  split; [rewrite (Hrows 17); vm_compute; reflexivity|].
  split; [rewrite (Hrows 152); vm_compute; reflexivity|exact Hshape].
Defined.

Lemma missing_wall_set_stops_the_run_witness :
  (uw_specialSets (Libraries := faulty.no_top) the_mesh
     !! "Bottom_VertexSet" = None
   ∨ uw_specialSets (Libraries := faulty.no_top) the_mesh
       !! "Top_VertexSet" = None)
  ∧ ∃ key,
      notebook (lib := faulty.no_top) fresh_kernel
        = (Raises (KeyError key),
           snd (through_cell3 (lib := faulty.no_top) fresh_kernel))
      ∧ uw_specialSets (Libraries := faulty.no_top) the_mesh !! key = None.
Proof.
  assert (H : uw_specialSets (Libraries := faulty.no_top) the_mesh
                !! "Bottom_VertexSet" = None
              ∨ uw_specialSets (Libraries := faulty.no_top) the_mesh
                  !! "Top_VertexSet" = None)
    by (right; vm_compute; reflexivity).
  split; [exact H|].
  destruct (missing_wall_set_stops_the_run (lib := faulty.no_top)
              fresh_kernel H) as (key & E & Hk & _).
  exists key. split; [exact E|exact Hk].
Defined.

Lemma through_cell5_needs_walls_in_bounds_witness :
  through_cell5 (lib := toy.libraries) fresh_kernel = (Returns g4, w5)
  ∧ uw_specialSets (Libraries := toy.libraries) the_mesh
      !! "Bottom_VertexSet" = Some (botWalls g4)
  ∧ set_Forall
      (λ i, i < length (uw_new_data (Libraries := toy.libraries) the_mesh 1))
      (botWalls g4 ∪ topWalls g4).
Proof.
  split; [exact toy_through_cell5|].
  destruct (through_cell5_needs_walls_in_bounds (lib := toy.libraries)
              fresh_kernel g4 w5 toy_through_cell5) as (Hb & _ & Hr).
  split; [exact Hb|exact Hr].
Defined.

Lemma solve_replaces_the_field_witness :
  through_cell5 (lib := toy.libraries) fresh_kernel = (Returns g4, w5)
  ∧ ∃ g7 w7,
      through_cell7 (lib := toy.libraries) fresh_kernel = (Returns g7, w7)
      ∧ field_data g4 w7
          = uw_solve (Libraries := toy.libraries) (heatequation g7)
              (field_data g4 w5).
Proof.
  split; [exact toy_through_cell5|].
  destruct (solve_replaces_the_field (lib := toy.libraries) fresh_kernel
              g4 w5 toy_through_cell5)
    as (g7 & w7 & E & _ & _ & _ & Hd & _).
  exists g7, w7. split; [exact E|exact Hd].
Defined.

Lemma outcome_of_the_notebook_witness :
  through_cell5 (lib := toy.libraries) fresh_kernel = (Returns g4, w5)
  ∧ fst (notebook (lib := toy.libraries) fresh_kernel) = Returns g9.
Proof.
  split; [exact toy_through_cell5|].
  destruct (outcome_of_the_notebook (lib := toy.libraries) fresh_kernel
              g4 w5 toy_through_cell5) as (Ho & _).
  rewrite Ho. vm_compute. reflexivity.
Defined.

Lemma two_images_of_one_figure_witness :
  through_cell5 (lib := toy.libraries) fresh_kernel = (Returns g4, w5)
  ∧ length (outputs (snd (notebook (lib := toy.libraries) fresh_kernel))) = 2.
Proof.
  split; [exact toy_through_cell5|].
  rewrite (two_images_of_one_figure (lib := toy.libraries) fresh_kernel
             g4 w5 toy_through_cell5).
  reflexivity.
Defined.

Lemma out_of_bounds_wall_stops_the_run_witness :
  uw_specialSets (Libraries := faulty.short_field) the_mesh
    !! "Bottom_VertexSet" = Some (toy.bottom the_mesh)
  ∧ uw_specialSets (Libraries := faulty.short_field) the_mesh
      !! "Top_VertexSet" = Some (toy.top the_mesh)
  ∧ ¬ set_Forall
        (λ i, i < length (uw_new_data (Libraries := faulty.short_field)
                            the_mesh 1))
        (toy.bottom the_mesh ∪ toy.top the_mesh)
  ∧ fst (notebook (lib := faulty.short_field) fresh_kernel)
      = Raises IndexError
  ∧ outputs (snd (notebook (lib := faulty.short_field) fresh_kernel)) = [].
Proof.
  assert (Hb : uw_specialSets (Libraries := faulty.short_field) the_mesh
                 !! "Bottom_VertexSet" = Some (toy.bottom the_mesh))
    by (vm_compute; reflexivity).
  assert (Ht : uw_specialSets (Libraries := faulty.short_field) the_mesh
                 !! "Top_VertexSet" = Some (toy.top the_mesh))
    by (vm_compute; reflexivity).
  assert (Hr : ¬ set_Forall
                 (λ i, i < length (uw_new_data
                                     (Libraries := faulty.short_field)
                                     the_mesh 1))
                 (toy.bottom the_mesh ∪ toy.top the_mesh)) by decided.
  do 3 (split; [assumption|]).
  destruct (out_of_bounds_wall_stops_the_run (lib := faulty.short_field)
              fresh_kernel _ _ Hb Ht Hr) as (Ho & _ & Hout).
  split; [exact Ho|exact Hout].
Defined.

(** When the integral evaluates to the empty vector, the run ends in
    IndexError and [isclose] is never entered. *)
Example empty_integral_run :
  fst (notebook (lib := faulty.no_integral) fresh_kernel) = Raises IndexError
  ∧ last (trace (snd (notebook (lib := faulty.no_integral) fresh_kernel)))
      = Some evaluate_call.
Proof. split; vm_compute; reflexivity. Qed.

End OnFaulty.

(** ** The events of a run *)

Section Events.

Context `{lib : Libraries}.

Lemma trace_after_cell5 (w : World) (g : Globals4) (w5 : World) :
  through_cell5 w = (Returns g, w5) →
  trace w5 =
    trace w ++ [assign_event "boxHeight"; assign_event "boxLength";
                assign_event "resx"; assign_event "resy";
                FeMesh_Cartesian_call (mesh g);
                add_variable_call (mesh g) 1;
                DirichletCondition_call (tempBC g)].
Proof.
  intros E. unfold through_cell5, bind in E.
  destruct (through_cell4 w) as [[g' |e] w4] eqn:E4; [|done].
  destruct (cell5_returns _ _ _ _ E) as (-> & -> & _).
  by destruct (through_cell4_returns _ _ _ E4) as (_ & _ & ->).
Qed.

Lemma cell9_trace (g : Globals7) (w : World) :
  trace (snd (cell9 g w)) =
    trace w ++ [Integral_call; evaluate_call] ++
      match uw_integrate (mesh g) (field_data g w) with
      | [] => []
      | x :: _ => [isclose_call (x / 2.0) 0.5]
      end.
Proof.
  unfold cell9, bind. rewrite cell9_average_runs. simpl.
  destruct (uw_integrate _ _) as [|x rest]; [done|].
  rewrite cell9_check_runs. simpl.
  change (boxHeight * boxLength)%float with 2.0%float.
  destruct (numpy_isclose _ _); simpl; by rewrite <- app_assoc.
Qed.

(** X13.  In a run that has got through cell In[5], the events of the whole
    notebook are, in order: the four parameter assignments; one mesh, one
    variable and one Dirichlet condition built; the figure built, given the
    mesh and the surface, and shown; the system and the solver built and the
    solve entered once; the figure shown again; the integral built and
    evaluated; and then, only if the integral is not empty, one call of
    [isclose] on the average and 0.5. *)
Theorem events_of_a_run (w : World) (g : Globals4) (w5 : World) :
  through_cell5 w = (Returns g, w5) →
  let sys := the_system (temperatureField g) (tempBC g) in
  trace (snd (notebook w)) =
    trace w ++
      [assign_event "boxHeight"; assign_event "boxLength";
       assign_event "resx"; assign_event "resy";
       FeMesh_Cartesian_call (mesh g); add_variable_call (mesh g) 1;
       DirichletCondition_call (tempBC g);
       Figure_call (800, 400)%Z; objects_Mesh_call; append_call;
       objects_Surface_call; append_call; show_call;
       SteadyStateHeat_call sys; Solver_call; solve_call;
       show_call;
       Integral_call; evaluate_call] ++
      match uw_integrate (mesh g) (uw_solve sys (field_data g w5)) with
      | [] => []
      | x :: _ => [isclose_call (x / 2.0) 0.5]
      end.
Proof.
  intros E. cbv zeta. rewrite (notebook_after_cell5 _ _ _ E), cell9_trace.
  match goal with
  | |- context [uw_integrate _ (field_data ?g7 ?w8)] =>
      replace (field_data g7 w8)
        with (uw_solve (the_system (temperatureField g) (tempBC g))
                (field_data g w5))
        by (symmetry; apply (field_after_solve _ _ _ _ E))
  end.
  simpl. rewrite (trace_after_cell5 _ _ _ E). by rewrite <- !app_assoc.
Qed.

End Events.

Section OnToyEvents.

Import on_toy.

Lemma events_of_a_run_witness :
  through_cell5 (lib := toy.libraries) fresh_kernel = (Returns g4, w5)
  ∧ length (trace (snd (notebook (lib := toy.libraries) fresh_kernel))) = 20
  ∧ last (trace (snd (notebook (lib := toy.libraries) fresh_kernel)))
      = Some (isclose_call 0.5 0.5).
Proof.
  split; [exact toy_through_cell5|].
  rewrite (events_of_a_run (lib := toy.libraries) fresh_kernel g4 w5
             toy_through_cell5).
  split; vm_compute; reflexivity.
Defined.

End OnToyEvents.

(** ** The steps of a run *)

Section Steps.

Context `{lib : Libraries}.

(** C7, as the code has it.  In a run from a fresh kernel that gets through
    cell In[5], the events of the whole notebook fall into seven steps, in
    this order: parameter declaration, mesh and variable construction,
    boundary-condition construction, visualization, solver invocation,
    visualization again, and the post-check.  One figure is built, in cell
    In[6], and it is that figure which is shown both times: after cell In[6]
    it has been shown once, no solve has been entered, and the one image
    displayed is its rendering from the arrays as cell In[5] left them; after
    cell In[8] one solve has been entered, the name [fig] is still bound to
    the same figure, and the second image is its rendering from the arrays
    after the solve.  The check displays nothing more. *)
Theorem steps_of_the_notebook (g : Globals4) (w5 : World) :
  through_cell5 fresh_kernel = (Returns g, w5) →
  let T := temperatureField g in
  let figure := the_figure (mesh g) T in
  let sys := the_system T (tempBC g) in
  let solved := <[data T := uw_solve sys (field_data g w5)]> (heap w5) in
  phases (snd (notebook fresh_kernel)) =
    [ParameterDeclaration; MeshAndVariables; BoundaryConditions;
     Visualization; SolverInvocation; Visualization; PostCheck]
  ∧ shows (snd (notebook fresh_kernel)) = 2
  ∧ figures_built (snd (notebook fresh_kernel)) = 1
  ∧ solves (snd (notebook fresh_kernel)) = 1
  ∧ outputs (snd (notebook fresh_kernel)) =
      [glucifer_render figure (heap w5); glucifer_render figure solved]
  ∧ (∃ g6 w6,
       through_cell6 fresh_kernel = (Returns g6, w6)
       ∧ fig g6 = figure
       ∧ shows w6 = 1 ∧ figures_built w6 = 1 ∧ solves w6 = 0
       ∧ outputs w6 = [glucifer_render figure (heap w5)])
  ∧ (∃ g8 w8,
       through_cell8 fresh_kernel = (Returns g8, w8)
       ∧ fig g8 = figure
       ∧ shows w8 = 2 ∧ figures_built w8 = 1 ∧ solves w8 = 1
       ∧ outputs w8 =
           [glucifer_render figure (heap w5); glucifer_render figure solved]).
Proof.
  intros E. cbv zeta.
  pose proof (trace_after_cell5 _ _ _ E) as Ht. simpl in Ht.
  destruct (through_cell5_returns _ _ _ E)
    as (_ & _ & _ & _ & _ & _ & _ & Ho). simpl in Ho.
  rewrite (notebook_after_cell5 _ _ _ E).
  split; [|split; [|split; [|split; [|split; [|split]]]]].
  - unfold phases. rewrite cell9_trace. simpl. rewrite Ht.
    by destruct (uw_integrate _ _).
  - unfold shows. rewrite cell9_trace. simpl. rewrite Ht.
    by destruct (uw_integrate _ _).
  - unfold figures_built. rewrite cell9_trace. simpl. rewrite Ht.
    by destruct (uw_integrate _ _).
  - unfold solves. rewrite cell9_trace. simpl. rewrite Ht.
    by destruct (uw_integrate _ _).
  - rewrite (proj2 (cell9_world _ _)). simpl. by rewrite Ho.
  - unfold through_cell6, bind. rewrite E, cell6_runs.
    eexists _, _. split; [reflexivity|]. simpl.
    unfold shows, figures_built, solves. simpl. rewrite Ht, Ho.
    by repeat split.
  - rewrite (through_cell8_after_cell5 _ _ _ E).
    eexists _, _. split; [reflexivity|]. simpl.
    unfold shows, figures_built, solves. simpl. rewrite Ht, Ho.
    by repeat split.
Qed.

End Steps.

Section OnToySteps.

Import on_toy.

Lemma steps_of_the_notebook_witness :
  through_cell5 (lib := toy.libraries) fresh_kernel = (Returns g4, w5)
  ∧ phases (snd (notebook (lib := toy.libraries) fresh_kernel)) =
      [ParameterDeclaration; MeshAndVariables; BoundaryConditions;
       Visualization; SolverInvocation; Visualization; PostCheck]
  ∧ shows (snd (notebook (lib := toy.libraries) fresh_kernel)) = 2
  ∧ figures_built (snd (notebook (lib := toy.libraries) fresh_kernel)) = 1
  ∧ length (outputs (snd (notebook (lib := toy.libraries) fresh_kernel))) = 2.
Proof.
  split; [exact toy_through_cell5|].
  destruct (steps_of_the_notebook (lib := toy.libraries) g4 w5
              toy_through_cell5) as (Hp & Hs & Hf & _ & Ho & _).
  split; [exact Hp|]. split; [exact Hs|]. split; [exact Hf|].
  rewrite Ho. reflexivity.
Defined.

End OnToySteps.
